(** * The Go types generator of the API metamodel, and the server adapter

    A shallow embedding of [pkg/generators/golang/types_generator.go]:
    the builder, the generator's [Run], the helper functions bound into the
    templates, the declarations the templates emit, and the behaviour of the
    emitted methods.  The server adapter that the server tests drive is
    modelled in [Module server]. *)

From Stdlib Require Import ZArith Ascii String List Bool Lia DecimalString.
From stdpp Require Import base option list gmap strings.

Open Scope string_scope.

(** ** Go errors and run-time failures *)

(** A Go [error] value built by [fmt.Errorf]: its message. *)
Definition error := string.

(** [fmt.Sprintf("%d", n)] for an [int]. *)
Definition fmt_d (n : Z) : string := NilZero.string_of_int (Z.to_int n).

(** The outcome of running emitted code: a result, or a run-time panic
    (nil dereference, index out of range, unbound identifier). *)
Inductive Exec (A : Type) : Type :=
| Ret (a : A)
| Panic.
Arguments Ret {A} a.
Arguments Panic {A}.

Definition exec_bind {A B} (m : Exec A) (k : A -> Exec B) : Exec B :=
  match m with
  | Ret a => k a
  | Panic => Panic
  end.

Declare Scope exec_scope.
Delimit Scope exec_scope with exec.
Notation "x <- m ;; k" := (exec_bind m (fun x => k))
  (at level 100, m at next level, right associativity) : exec_scope.

(** Go's short-circuit [a && b]: [b] is evaluated only when [a] is true. *)
Definition and_then (a : Exec bool) (b : Exec bool) : Exec bool :=
  exec_bind a (fun x => if x then b else Ret false).

(** Go's short-circuit [a || b]. *)
Definition or_else (a : Exec bool) (b : Exec bool) : Exec bool :=
  exec_bind a (fun x => if x then Ret true else b).

(** ** The model graph, as the generator reads it ([pkg/concepts]) *)

Module concepts.

(** Modelled from the spec: [names.Name] and [names.Cat] of [pkg/names];
    a name is an ordered sequence of words, and [Cat] concatenates. *)
Definition Name := list string.
Definition Cat (a b : Name) : Name := (a ++ b)%list.

(** What [typ.Owner()] hands to the packages calculator: the version,
    referred to by name. *)
Definition VersionRef := Name.

(** Modelled from the spec: [concepts.Type], [concepts.Attribute] and
    [concepts.EnumValue] of [pkg/concepts].  The generator reads them
    through their accessors only, so each is recorded by what the accessors
    the generator calls return for it; nothing is assumed on how the kind
    accessors relate to each other. *)
Inductive Type_ : Type := mkType {
  Type_Name : Name;
  Type_Doc : string;
  Type_Owner : VersionRef;
  IsScalar : bool;
  IsEnum : bool;
  IsStruct : bool;
  IsClass : bool;
  IsList : bool;
  IsMap : bool;
  Attributes : list Attribute;
  Values : list EnumValue }
with Attribute : Type := mkAttribute {
  Attribute_Name : Name;
  Attribute_Doc : string;
  Attribute_Type : Type_;
  Attribute_Link : bool }
with EnumValue : Type := mkEnumValue {
  EnumValue_Name : Name;
  EnumValue_Doc : string;
  (** [value.Type().Name()] *)
  EnumValue_TypeName : Name }.

Record Version := mkVersion {
  Version_Ref : VersionRef;
  Types : list Type_ }.

Record Service := mkService {
  Versions : list Version }.

Record Model := mkModel {
  Services : list Service }.

End concepts.

(** The words of [pkg/nomenclator] that the generator uses, taken as
    given. *)
Module nomenclator.
Record Words := mkWords {
  List : concepts.Name;
  Metadata : concepts.Name;
  Type_ : concepts.Name }.
End nomenclator.

(** ** The reporter ([pkg/reporter]) *)

Module reporter.

(** One call of [Errorf]: the format and the attribute passed for [%s]. *)
Record ErrorCall := mkErrorCall {
  call_format : string;
  call_attribute : concepts.Attribute }.

(** Modelled from the spec: [reporter.Reporter], a sink for error records.
    This generator only calls its [Errorf]; the reporter is recorded as the
    calls made, oldest first. *)
Record Reporter := mkReporter {
  calls : list ErrorCall }.

Definition Errorf (r : Reporter) (format : string) (a : concepts.Attribute) : Reporter :=
  {| calls := (calls r ++ [mkErrorCall format a])%list |}.

End reporter.

(** ** Package [golang] *)

Module golang.
Import concepts.

(** The calculators live in the same package, outside this file.  They are
    taken as records of the functions the generator calls.  A function that
    returns a [*TypeReference] may return [nil], hence [option]. *)

Record PackagesCalculator := mkPackagesCalculator {
  VersionPackage : VersionRef -> string }.

Record NamesCalculator := mkNamesCalculator {
  Public : Name -> string;
  Private : Name -> string;
  File : Name -> string }.

(** [TypeReference] is declared with the types calculator.  This file copies
    references, prints them in templates and builds the zero value
    [&TypeReference{}]; that zero value is all that is needed of the type. *)
Class ReferenceType (R : Type) := { zero_reference : R }.

(** Addresses of arrays and objects, and the heap of the arrays that back
    the [items] slices of the emitted list types. *)
Definition loc := nat.
Abbreviation Heap := (gmap loc (list (option loc))).

Section Generator.
Context {TypeReference : Type} {RT : ReferenceType TypeReference}.

Record TypesCalculator := mkTypesCalculator {
  ValueReference : Type_ -> option TypeReference;
  NullableReference : Type_ -> option TypeReference;
  ListReference : Type_ -> option TypeReference;
  ZeroValue : Type_ -> string;
  EnumName : Type_ -> string }.

(** *** Emitted source

    A template expansion is recorded as the declarations it produces, in
    order.  Comments are not recorded.  Each emitted method is recorded by
    the template body it was expanded from, with the template variables
    filled in. *)

(** The conjuncts the [Empty] template writes for a struct. *)
Inductive EmptyCond : Type :=
| CIdNil                           (* o.id == nil *)
| CFieldNil (field : string)       (* o.f == nil *)
| CFieldLenMethod (field : string) (* o.f.Len() == 0 *)
| CFieldLen (field : string).      (* len(o.f) == 0 *)

(** Bodies of the methods on [*{{ $objectName }}]. *)
Inductive StructBody : Type :=
| BKind (nilKind linkKind kind : string)
| BID
| BGetID
| BLink
| BHREF
| BGetHREF
| BEmpty (conds : list EmptyCond)
| BGetterRef (field : string)
| BGetterScalar (field : string) (zero : string)
| BProbeRef (field : string) (ty : option TypeReference)
| BProbeScalar (field : string) (ty : option TypeReference).

(** Bodies of the methods on [*{{ $listName }}]. *)
Inductive ListBody : Type :=
| LKind (nilKind linkKind kind : string)
| LLink
| LHREF
| LGetHREF
| LLen
| LEmpty
| LGet
| LSlice
| LEach
| LRange.

(** Bodies of the methods on [*Metadata]. *)
Inductive MetadataBody : Type :=
| MServerVersion
| MGetServerVersion.

(** The type written after a field name. *)
Inductive FieldType : Type :=
| TyText (text : string)
| TyRef (ref : option TypeReference)
| TySliceOfPtr (object : string).

Inductive Decl : Type :=
| DConst (name value : string)
| DTypedConst (name type value : string)
| DAlias (name target : string)
| DStruct (name : string) (fields : list (string * FieldType))
| DStructMethod (receiver name : string) (body : StructBody)
| DListMethod (receiver name : string) (body : ListBody)
| DMetadataMethod (name : string) (body : MetadataBody).

(** Modelled from the spec: the template buffer ([Buffer], same package,
    outside this file), as far as the generator drives it: where the file
    goes, the imports recorded and the source accumulated. *)
Record Buffer := mkBuffer {
  buffer_output : string;
  buffer_package : string;
  buffer_file : string;
  buffer_imports : list (string * string);
  buffer_code : list Decl }.

Definition Import (b : Buffer) (path alias : string) : Buffer :=
  {| buffer_output := buffer_output b; buffer_package := buffer_package b;
     buffer_file := buffer_file b;
     buffer_imports := (buffer_imports b ++ [(path, alias)])%list;
     buffer_code := buffer_code b |}.

Definition Emit (b : Buffer) (code : list Decl) : Buffer :=
  {| buffer_output := buffer_output b; buffer_package := buffer_package b;
     buffer_file := buffer_file b;
     buffer_imports := buffer_imports b;
     buffer_code := (buffer_code b ++ code)%list |}.

(** Whether building a buffer and writing it succeed is decided outside this
    file (the file system, the formatter). *)
Record BufferEnv := mkBufferEnv {
  build_fails : string -> string -> string -> option error;
  write_fails : Buffer -> option error }.

(** *** The builder and the generator *)

Record TypesGeneratorBuilder := mkTypesGeneratorBuilder {
  b_reporter : option reporter.Reporter;
  b_model : option Model;
  b_output : string;
  b_packages : option PackagesCalculator;
  b_names : option NamesCalculator;
  b_types : option TypesCalculator }.

Record TypesGenerator := mkTypesGenerator {
  g_reporter : reporter.Reporter;
  g_errors : Z;
  g_model : Model;
  g_output : string;
  g_packages : PackagesCalculator;
  g_names : NamesCalculator;
  g_types : TypesCalculator;
  g_buffer : option Buffer }.

Definition NewTypesGenerator : TypesGeneratorBuilder :=
  {| b_reporter := None; b_model := None; b_output := "";
     b_packages := None; b_names := None; b_types := None |}.

(** The setters of the builder: [Reporter], [Model], [Output], [Packages],
    [Names] and [Types]. *)
Definition Builder_Reporter (value : option reporter.Reporter)
    (b : TypesGeneratorBuilder) : TypesGeneratorBuilder :=
  {| b_reporter := value; b_model := b_model b; b_output := b_output b;
     b_packages := b_packages b; b_names := b_names b; b_types := b_types b |}.

Definition Builder_Model (value : option Model)
    (b : TypesGeneratorBuilder) : TypesGeneratorBuilder :=
  {| b_reporter := b_reporter b; b_model := value; b_output := b_output b;
     b_packages := b_packages b; b_names := b_names b; b_types := b_types b |}.

Definition Builder_Output (value : string)
    (b : TypesGeneratorBuilder) : TypesGeneratorBuilder :=
  {| b_reporter := b_reporter b; b_model := b_model b; b_output := value;
     b_packages := b_packages b; b_names := b_names b; b_types := b_types b |}.

Definition Builder_Packages (value : option PackagesCalculator)
    (b : TypesGeneratorBuilder) : TypesGeneratorBuilder :=
  {| b_reporter := b_reporter b; b_model := b_model b; b_output := b_output b;
     b_packages := value; b_names := b_names b; b_types := b_types b |}.

Definition Builder_Names (value : option NamesCalculator)
    (b : TypesGeneratorBuilder) : TypesGeneratorBuilder :=
  {| b_reporter := b_reporter b; b_model := b_model b; b_output := b_output b;
     b_packages := b_packages b; b_names := value; b_types := b_types b |}.

Definition Builder_Types (value : option TypesCalculator)
    (b : TypesGeneratorBuilder) : TypesGeneratorBuilder :=
  {| b_reporter := b_reporter b; b_model := b_model b; b_output := b_output b;
     b_packages := b_packages b; b_names := b_names b; b_types := value |}.

(** [Build]: the first field found unset is the error; the generator is
    returned only with all six set. *)
Definition Build (b : TypesGeneratorBuilder) : option TypesGenerator * option error :=
  match b_reporter b with
  | None => (None, Some "reporter is mandatory")
  | Some rep =>
  match b_model b with
  | None => (None, Some "model is mandatory")
  | Some model =>
  if String.eqb (b_output b) "" then (None, Some "output is mandatory") else
  match b_packages b with
  | None => (None, Some "packages calculator is mandatory")
  | Some packages =>
  match b_names b with
  | None => (None, Some "names calculator is mandatory")
  | Some names =>
  match b_types b with
  | None => (None, Some "types calculator is mandatory")
  | Some types =>
    (Some {| g_reporter := rep; g_errors := 0; g_model := model;
             g_output := b_output b; g_packages := packages;
             g_names := names; g_types := types; g_buffer := None |},
     None)
  end end end end end.

Definition set_reporter (g : TypesGenerator) (r : reporter.Reporter) : TypesGenerator :=
  {| g_reporter := r; g_errors := g_errors g; g_model := g_model g;
     g_output := g_output g; g_packages := g_packages g;
     g_names := g_names g; g_types := g_types g; g_buffer := g_buffer g |}.

Definition set_buffer (g : TypesGenerator) (b : option Buffer) : TypesGenerator :=
  {| g_reporter := g_reporter g; g_errors := g_errors g; g_model := g_model g;
     g_output := g_output g; g_packages := g_packages g;
     g_names := g_names g; g_types := g_types g; g_buffer := b |}.

(** The generator's methods read and update the generator: a state monad. *)
Definition Gen (A : Type) : Type := TypesGenerator -> A * TypesGenerator.

Definition gen_ret {A} (a : A) : Gen A := fun g => (a, g).

Definition gen_bind {A B} (m : Gen A) (k : A -> Gen B) : Gen B :=
  fun g => let '(a, g1) := m g in k a g1.

Fixpoint gen_map {A B} (f : A -> Gen B) (l : list A) : Gen (list B) :=
  match l with
  | [] => gen_ret []
  | a :: rest =>
    gen_bind (f a) (fun b => gen_bind (gen_map f rest) (fun bs => gen_ret (b :: bs)))
  end.

(** [g.reporter.Errorf(format, attribute)] *)
Definition report (format : string) (a : Attribute) : Gen unit :=
  fun g => (tt, set_reporter g (reporter.Errorf (g_reporter g) format a)).

(** *** Helper functions bound into the templates *)

Definition fieldName (g : TypesGenerator) (attribute : Attribute) : string :=
  Private (g_names g) (Attribute_Name attribute).

Definition getterName (g : TypesGenerator) (attribute : Attribute) : string :=
  Public (g_names g) (Attribute_Name attribute).

Definition objectName (g : TypesGenerator) (typ : Type_) : string :=
  Public (g_names g) (Type_Name typ).

Definition valueName (g : TypesGenerator) (value : EnumValue) : string :=
  Public (g_names g) (Cat (EnumValue_TypeName value) (EnumValue_Name value)).

Section Words.
Variable words : nomenclator.Words.
(** [Name.String()], of [pkg/names]. *)
Variable Name_String : Name -> string.

Definition valueTag (value : EnumValue) : string :=
  Name_String (EnumValue_Name value).

Definition listName (g : TypesGenerator) (typ : Type_) : string :=
  Public (g_names g) (Cat (Type_Name typ) (nomenclator.List words)).

Definition metadataFile (g : TypesGenerator) : string :=
  File (g_names g) (Cat (nomenclator.Metadata words) (nomenclator.Type_ words)).

Definition typeFile (g : TypesGenerator) (typ : Type_) : string :=
  File (g_names g) (Cat (Type_Name typ) (nomenclator.Type_ words)).

(** The tail shared by [getterType] and [fieldType]: a [nil] reference is
    reported and replaced by [&TypeReference{}]. *)
Definition or_report (format : string) (attribute : Attribute)
    (ref : option TypeReference) : Gen (option TypeReference) :=
  match ref with
  | None => gen_bind (report format attribute) (fun _ => gen_ret (Some zero_reference))
  | Some r => gen_ret (Some r)
  end.

Definition getterType (attribute : Attribute) : Gen (option TypeReference) :=
  fun g =>
  let typ := Attribute_Type attribute in
  let ref :=
    if IsScalar typ then ValueReference (g_types g) typ
    else if IsStruct typ then NullableReference (g_types g) typ
    else if IsList typ then
      (if Attribute_Link attribute then ListReference (g_types g) typ
       else NullableReference (g_types g) typ)
    else if IsMap typ then NullableReference (g_types g) typ
    else None in
  or_report "Don't know how to calculate getter type for attribute '%s'"
    attribute ref g.

Definition fieldType (attribute : Attribute) : Gen (option TypeReference) :=
  fun g =>
  let typ := Attribute_Type attribute in
  let ref :=
    if IsScalar typ then NullableReference (g_types g) typ
    else if IsStruct typ then NullableReference (g_types g) typ
    else if IsList typ then
      (if Attribute_Link attribute then ListReference (g_types g) typ
       else NullableReference (g_types g) typ)
    else if IsMap typ then NullableReference (g_types g) typ
    else None in
  or_report "Don't know how to calculate field type for attribute '%s'"
    attribute ref g.

(** *** Templates *)

(** [g.buffer.Import] and [g.buffer.Emit]: [g.buffer] is set by the caller
    ([generateTypeFile], [generateVersionMetadataTypeFile]) before the source
    is generated. *)
Definition on_buffer (f : Buffer -> Buffer) : Gen unit :=
  fun g => (tt, set_buffer g (f <$> g_buffer g)).

Definition versionMetadataTypeSource : list Decl :=
  [ DStruct "Metadata" [("serverVersion", TyText "*string")];
    DMetadataMethod "ServerVersion" MServerVersion;
    DMetadataMethod "GetServerVersion" MGetServerVersion ].

Definition generateVersionMetadataTypeSource (version : Version) : Gen unit :=
  on_buffer (fun b => Emit b versionMetadataTypeSource).

Definition enumTypeSource (g : TypesGenerator) (typ : Type_) : list Decl :=
  let enumName := EnumName (g_types g) typ in
  DAlias enumName "string"
  :: map (fun v => DTypedConst (valueName g v) enumName (valueTag v)) (Values typ).

Definition generateEnumTypeSource (typ : Type_) : Gen unit :=
  fun g => on_buffer (fun b => Emit b (enumTypeSource g typ)) g.

(** [{{ fieldName . }} {{ fieldType . }}] *)
Definition structField (a : Attribute) : Gen (string * FieldType) :=
  fun g => let '(ref, g1) := fieldType a g in ((fieldName g a, TyRef ref), g1).

(** The conjunct of [Empty] for one attribute. *)
Definition emptyCond (g : TypesGenerator) (a : Attribute) : list EmptyCond :=
  let field := fieldName g a in
  if IsScalar (Attribute_Type a) then [CFieldNil field]
  else if IsList (Attribute_Type a) then
    (if Attribute_Link a then [CFieldLenMethod field] else [CFieldLen field])
  else if IsMap (Attribute_Type a) then [CFieldLen field]
  else [].

Definition emptyConds (g : TypesGenerator) (typ : Type_) : list EmptyCond :=
  ((if IsClass typ then [CIdNil] else []) ++ flat_map (emptyCond g) (Attributes typ))%list.

(** The getter and the probing getter of one attribute. *)
Definition attributeGetters (object : string) (a : Attribute) : Gen (list Decl) :=
  fun g =>
  let field := fieldName g a in
  let getter := getterName g a in
  let '(ref, g1) := getterType a g in
  let typ := Attribute_Type a in
  let by_ref := IsStruct typ || IsList typ || IsMap typ in
  ([ DStructMethod object getter
       (if by_ref then BGetterRef field
        else BGetterScalar field (ZeroValue (g_types g) typ));
     DStructMethod object ("Get" ++ getter)
       (if by_ref then BProbeRef field ref else BProbeScalar field ref) ],
   g1).

Definition structConstants (object : string) : list Decl :=
  [ DConst (object ++ "Kind") object;
    DConst (object ++ "LinkKind") (object ++ "Link");
    DConst (object ++ "NilKind") (object ++ "Nil") ].

Definition classMethods (object : string) : list Decl :=
  [ DStructMethod object "Kind"
      (BKind (object ++ "NilKind") (object ++ "LinkKind") (object ++ "Kind"));
    DStructMethod object "ID" BID;
    DStructMethod object "GetID" BGetID;
    DStructMethod object "Link" BLink;
    DStructMethod object "HREF" BHREF;
    DStructMethod object "GetHREF" BGetHREF ].

Definition listConstants (list_ : string) : list Decl :=
  [ DConst (list_ ++ "Kind") list_;
    DConst (list_ ++ "LinkKind") (list_ ++ "Link");
    DConst (list_ ++ "NilKind") (list_ ++ "Nil") ].

Definition listClassMethods (list_ : string) : list Decl :=
  [ DListMethod list_ "Kind"
      (LKind (list_ ++ "NilKind") (list_ ++ "LinkKind") (list_ ++ "Kind"));
    DListMethod list_ "Link" LLink;
    DListMethod list_ "HREF" LHREF;
    DListMethod list_ "GetHREF" LGetHREF ].

Definition listMethods (list_ : string) : list Decl :=
  [ DListMethod list_ "Len" LLen;
    DListMethod list_ "Empty" LEmpty;
    DListMethod list_ "Get" LGet;
    DListMethod list_ "Slice" LSlice;
    DListMethod list_ "Each" LEach;
    DListMethod list_ "Range" LRange ].

(** The expansion of the struct template, top to bottom. *)
Definition structTypeSource (typ : Type_) : Gen (list Decl) :=
  fun g =>
  let object := objectName g typ in
  let list_ := listName g typ in
  let class := IsClass typ in
  let '(fields, g1) := gen_map structField (Attributes typ) g in
  let '(getters, g2) := gen_map (attributeGetters object) (Attributes typ) g1 in
  (((if class then structConstants object else [])
    ++ [DStruct object
          ((if class
            then [("id", TyText "*string"); ("href", TyText "*string");
                  ("link", TyText "bool")]
            else []) ++ fields)]
    ++ (if class then classMethods object else [])
    ++ [DStructMethod object "Empty" (BEmpty (emptyConds g typ))]
    ++ concat getters
    ++ listConstants list_
    ++ [DStruct list_
          [("href", TyText "*string"); ("link", TyText "bool");
           ("items", TySliceOfPtr object)]]
    ++ (if class then listClassMethods list_ else [])
    ++ listMethods list_)%list,
   g2).

Definition generateStructTypeSource (typ : Type_) : Gen unit :=
  gen_bind (on_buffer (fun b => Import b "time" ""))
    (fun _ => gen_bind (structTypeSource typ)
      (fun code => on_buffer (fun b => Emit b code))).

Definition generateTypeSource (typ : Type_) : Gen unit :=
  if IsEnum typ then generateEnumTypeSource typ
  else if IsStruct typ then generateStructTypeSource typ
  else gen_ret tt.

(** *** Files and [Run] *)

Variable env : BufferEnv.

(** [NewBuffer()... .Build()]: the buffer, or nil and the error. *)
Definition newBuffer (g : TypesGenerator) (pkgName fileName : string)
    : option Buffer * option error :=
  match build_fails env (g_output g) pkgName fileName with
  | Some e => (None, Some e)
  | None =>
    (Some {| buffer_output := g_output g; buffer_package := pkgName;
             buffer_file := fileName; buffer_imports := [];
             buffer_code := [] |}, None)
  end.

(** [g.buffer.Write()] *)
Definition writeBuffer : Gen (option error) :=
  fun g =>
  match g_buffer g with
  | Some b => (write_fails env b, g)
  | None => (None, g)
  end.

Definition generateVersionMetadataTypeFile (version : Version) : Gen (option error) :=
  fun g =>
  let pkgName := VersionPackage (g_packages g) (Version_Ref version) in
  let fileName := metadataFile g in
  let '(buffer, err) := newBuffer g pkgName fileName in
  let g1 := set_buffer g buffer in
  match err with
  | Some e => (Some e, g1)
  | None =>
    let '(_, g2) := generateVersionMetadataTypeSource version g1 in
    writeBuffer g2
  end.

Definition generateTypeFile (typ : Type_) : Gen (option error) :=
  fun g =>
  let pkgName := VersionPackage (g_packages g) (Type_Owner typ) in
  let fileName := typeFile g typ in
  let '(buffer, err) := newBuffer g pkgName fileName in
  let g1 := set_buffer g buffer in
  match err with
  | Some e => (Some e, g1)
  | None =>
    let '(_, g2) := generateTypeSource typ g1 in
    writeBuffer g2
  end.

(** A [for ... range] loop whose body returns from the function on error. *)
Fixpoint for_each {A} (body : A -> Gen (option error)) (l : list A) : Gen (option error) :=
  match l with
  | [] => gen_ret None
  | a :: rest =>
    fun g =>
    match body a g with
    | (Some e, g1) => (Some e, g1)
    | (None, g1) => for_each body rest g1
    end
  end.

Definition run_type (typ : Type_) : Gen (option error) :=
  if IsEnum typ || IsStruct typ then generateTypeFile typ else gen_ret None.

Definition run_version (version : Version) : Gen (option error) :=
  fun g =>
  match generateVersionMetadataTypeFile version g with
  | (Some e, g1) => (Some e, g1)
  | (None, g1) => for_each run_type (Types version) g1
  end.

(** The loops of [Run], before the error count is looked at. *)
Definition run_services : Gen (option error) :=
  fun g =>
  for_each (fun service => for_each run_version (Versions service))
    (Services (g_model g)) g.

Definition Run : Gen (option error) :=
  fun g =>
  match run_services g with
  | (Some e, g1) => (Some e, g1)
  | (None, g1) =>
    if (g_errors g1 >? 0)%Z then
      if (g_errors g1 >? 1)%Z
      then (Some ("there were " ++ fmt_d (g_errors g1) ++ " errors"), g1)
      else (Some "there was 1 error", g1)
    else (None, g1)
  end.

(** *** What the emitted code does when it runs

    Values of the emitted types, and the emitted method bodies read as Go.
    A nil receiver is [None]; reading a field through it panics. *)

(** Scalar values; floats, dates and interfaces are opaque tokens. *)
Inductive Scalar : Type :=
| SBool (b : bool)
| SInt (n : Z)
| SString (s : string)
| SOpaque (token : nat).

(** An element of a slice or map held by a struct field. *)
Inductive Item : Type :=
| IScalar (v : Scalar)
| IPtr (p : option loc).

(** [{{ $listName }}]: [items] is a slice, nil or backed by an array of
    pointers in the heap. *)
Record ListObject := mkListObject {
  list_href : option string;
  list_link : bool;
  list_items : option loc }.

(** What a field of an emitted struct holds. *)
Inductive FieldValue : Type :=
| FScalar (p : option Scalar)                (* *T *)
| FStruct (p : option loc)                   (* *Struct *)
| FSlice (s : option (list Item))            (* []T *)
| FList (p : option ListObject)              (* *StructList *)
| FMap (m : option (list (string * Item))).  (* map[string]T *)

(** [{{ $objectName }}]: the three fields of a class and one field per
    attribute, by field name. *)
Record Object := mkObject {
  obj_id : option string;
  obj_href : option string;
  obj_link : bool;
  obj_fields : gmap string FieldValue }.

Record MetadataObject := mkMetadataObject {
  serverVersion : option string }.

Inductive Value : Type :=
| VString (s : string)
| VBool (b : bool)
| VInt (n : Z)
| VNil                                    (* the literal nil *)
| VScalar (v : Scalar)                    (* *o.f *)
| VField (fv : FieldValue)                (* o.f *)
| VLiteral (text : string)                (* a literal written by the calculator *)
| VZeroOf (ty : option TypeReference)     (* a named result never assigned *)
| VItemPtr (p : option loc)
| VSlice (s : option loc)
| VPair (value : Value) (ok : bool)
| VEachCalls (items : list (option loc))  (* the callback's calls, in order *)
| VRangeCalls (items : list (Z * option loc)).

(** The arguments of a call; a method reads those it declares. *)
Record Args := mkArgs {
  arg_i : Z;
  arg_each : option loc -> bool;
  arg_range : Z -> option loc -> bool }.

(** [*p] *)
Definition deref {A} (p : option A) : Exec A :=
  match p with
  | Some a => Ret a
  | None => Panic
  end.

Definition not_nil {A} (p : option A) : bool :=
  match p with
  | Some _ => true
  | None => false
  end.

(** An identifier of the file: the constant declared under that name. *)
Fixpoint lookup_const (code : list Decl) (name : string) : option string :=
  match code with
  | [] => None
  | DConst n v :: rest => if String.eqb n name then Some v else lookup_const rest name
  | _ :: rest => lookup_const rest name
  end.

Definition constant (code : list Decl) (name : string) : Exec Value :=
  match lookup_const code name with
  | Some v => Ret (VString v)
  | None => Panic
  end.

(** [o.f] *)
Definition field (o : option Object) (f : string) : Exec FieldValue :=
  exec_bind (deref o) (fun ob => deref (obj_fields ob !! f)).

(** [o.f != nil] *)
Definition field_not_nil (fv : FieldValue) : bool :=
  match fv with
  | FScalar p => not_nil p
  | FStruct p => not_nil p
  | FSlice s => not_nil s
  | FList p => not_nil p
  | FMap m => not_nil m
  end.

(** [len(o.f)], for a slice or a map. *)
Definition field_len (fv : FieldValue) : Exec Z :=
  match fv with
  | FSlice None => Ret 0%Z
  | FSlice (Some s) => Ret (Z.of_nat (length s))
  | FMap None => Ret 0%Z
  | FMap (Some m) => Ret (Z.of_nat (length m))
  | _ => Panic
  end.

(** [*o.f], for a pointer to a scalar. *)
Definition field_deref (fv : FieldValue) : Exec Value :=
  match fv with
  | FScalar (Some v) => Ret (VScalar v)
  | _ => Panic
  end.

(** [l.items] read as a sequence; [len(l.items)]. *)
Definition items_of (h : Heap) (s : option loc) : Exec (list (option loc)) :=
  match s with
  | None => Ret []
  | Some a => deref (h !! a)
  end.

Definition list_len (h : Heap) (l : option ListObject) : Exec Z :=
  match l with
  | None => Ret 0%Z
  | Some lo => exec_bind (items_of h (list_items lo)) (fun d => Ret (Z.of_nat (length d)))
  end.

(** [for _, item := range items { if !f(item) { break } }] *)
Fixpoint each_loop (f : option loc -> bool) (items : list (option loc))
    : list (option loc) :=
  match items with
  | [] => []
  | item :: rest => item :: (if f item then each_loop f rest else [])
  end.

Fixpoint range_loop (f : Z -> option loc -> bool) (index : Z)
    (items : list (option loc)) : list (Z * option loc) :=
  match items with
  | [] => []
  | item :: rest =>
    (index, item) :: (if f index item then range_loop f (index + 1)%Z rest else [])
  end.

(** [make([]*T, n)]: a fresh array of [n] nil pointers. *)
Definition make_slice (h : Heap) (n : nat) : loc * Heap :=
  let a := fresh (dom h) in (a, <[a := replicate n None]> h).

(** [copy(dst, src)]: the first [min(len(dst), len(src))] elements. *)
Definition copy_items (dst src : list (option loc)) : list (option loc) :=
  let n := Nat.min (length dst) (length src) in
  (take n src ++ drop n dst)%list.

(** [s[i] = v] *)
Definition store_item (h : Heap) (s : option loc) (i : nat) (v : option loc) : Exec Heap :=
  match s with
  | None => Panic
  | Some a =>
    match h !! a with
    | Some d => if (i <? length d)%nat then Ret (<[a := <[i := v]> d]> h) else Panic
    | None => Panic
    end
  end.

Definition run_empty_cond (h : Heap) (o : option Object) (c : EmptyCond) : Exec bool :=
  match c with
  | CIdNil => exec_bind (deref o) (fun ob => Ret (negb (not_nil (obj_id ob))))
  | CFieldNil f => exec_bind (field o f) (fun fv => Ret (negb (field_not_nil fv)))
  | CFieldLenMethod f =>
    exec_bind (field o f) (fun fv =>
      match fv with
      | FList p => exec_bind (list_len h p) (fun n => Ret (n =? 0)%Z)
      | _ => Panic
      end)
  | CFieldLen f =>
    exec_bind (field o f) (fun fv => exec_bind (field_len fv) (fun n => Ret (n =? 0)%Z))
  end.

(** [c1 && c2 && ... && true] *)
Fixpoint run_empty_conds (h : Heap) (o : option Object) (cs : list EmptyCond) : Exec bool :=
  match cs with
  | [] => Ret true
  | c :: rest => and_then (run_empty_cond h o c) (run_empty_conds h o rest)
  end.

(** The getter of an optional string field ([ID], [HREF], [ServerVersion]):
    [if o != nil && o.f != nil { return *o.f }; return ""]. *)
Definition string_getter {A} (o : option A) (f : A -> option string) : Exec Value :=
  exec_bind
    (and_then (Ret (not_nil o)) (exec_bind (deref o) (fun ob => Ret (not_nil (f ob)))))
    (fun c =>
      if c then exec_bind (deref o) (fun ob => exec_bind (deref (f ob)) (fun s => Ret (VString s)))
      else Ret (VString "")).

(** The probing getter of an optional string field:
    [ok = o != nil && o.f != nil; if ok { value = *o.f }; return]. *)
Definition string_probe {A} (o : option A) (f : A -> option string) : Exec Value :=
  exec_bind
    (and_then (Ret (not_nil o)) (exec_bind (deref o) (fun ob => Ret (not_nil (f ob)))))
    (fun ok =>
      if ok
      then exec_bind (deref o) (fun ob => exec_bind (deref (f ob)) (fun s => Ret (VPair (VString s) ok)))
      else Ret (VPair (VString "") ok)).

(** [Kind()]: [if o == nil { return NilKind }; if o.link { return LinkKind };
    return Kind]. *)
Definition kind_of {A} (code : list Decl) (o : option A) (link : A -> bool)
    (nilKind linkKind kind : string) : Exec Value :=
  match o with
  | None => constant code nilKind
  | Some ob => if link ob then constant code linkKind else constant code kind
  end.

(** [Link()]: [return o != nil && o.link]. *)
Definition link_of {A} (o : option A) (link : A -> bool) : Exec Value :=
  exec_bind (and_then (Ret (not_nil o)) (exec_bind (deref o) (fun ob => Ret (link ob))))
    (fun b => Ret (VBool b)).

(** A method on [*{{ $objectName }}], in a file whose declarations are [code]. *)
Definition run_struct (code : list Decl) (h : Heap) (b : StructBody)
    (o : option Object) : Exec Value :=
  match b with
  | BKind nilKind linkKind kind => kind_of code o obj_link nilKind linkKind kind
  | BID => string_getter o obj_id
  | BGetID => string_probe o obj_id
  | BLink => link_of o obj_link
  | BHREF => string_getter o obj_href
  | BGetHREF => string_probe o obj_href
  | BEmpty conds =>
    exec_bind (or_else (Ret (negb (not_nil o))) (run_empty_conds h o conds))
      (fun r => Ret (VBool r))
  | BGetterRef f =>
    if negb (not_nil o) then Ret VNil
    else exec_bind (field o f) (fun fv => Ret (VField fv))
  | BGetterScalar f zero =>
    exec_bind
      (and_then (Ret (not_nil o)) (exec_bind (field o f) (fun fv => Ret (field_not_nil fv))))
      (fun c =>
        if c then exec_bind (field o f) field_deref
        else Ret (VLiteral zero))
  | BProbeRef f ty =>
    exec_bind
      (and_then (Ret (not_nil o)) (exec_bind (field o f) (fun fv => Ret (field_not_nil fv))))
      (fun ok =>
        if ok then exec_bind (field o f) (fun fv => Ret (VPair (VField fv) ok))
        else Ret (VPair (VZeroOf ty) ok))
  | BProbeScalar f ty =>
    exec_bind
      (and_then (Ret (not_nil o)) (exec_bind (field o f) (fun fv => Ret (field_not_nil fv))))
      (fun ok =>
        if ok then exec_bind (field o f) (fun fv =>
                   exec_bind (field_deref fv) (fun v => Ret (VPair v ok)))
        else Ret (VPair (VZeroOf ty) ok))
  end.

(** [Slice()] *)
Definition run_slice (h : Heap) (l : option ListObject) : Exec (option loc * Heap) :=
  match l with
  | None =>
    let '(a, h1) := make_slice h 0 in Ret (Some a, h1)
  | Some lo =>
    exec_bind (items_of h (list_items lo)) (fun src =>
      let '(a, h1) := make_slice h (length src) in
      exec_bind (items_of h1 (Some a)) (fun dst =>
        Ret (Some a, <[a := copy_items dst src]> h1)))
  end.

(** [Get(i)]: [if l == nil || i < 0 || i >= len(l.items) { return nil };
    return l.items[i]]. *)
Definition run_get (h : Heap) (l : option ListObject) (i : Z) : Exec (option loc) :=
  exec_bind
    (or_else (Ret (negb (not_nil l)))
      (or_else (Ret (i <? 0)%Z)
        (exec_bind (list_len h l) (fun n => Ret (i >=? n)%Z))))
    (fun out =>
      if out then Ret None
      else exec_bind (deref l) (fun lo =>
           exec_bind (items_of h (list_items lo)) (fun d => deref (d !! Z.to_nat i)))).

(** A method on [*{{ $listName }}]; [Slice] allocates, so the heap is
    returned with the result. *)
Definition run_list (code : list Decl) (h : Heap) (b : ListBody)
    (l : option ListObject) (args : Args) : Exec (Value * Heap) :=
  match b with
  | LKind nilKind linkKind kind =>
    exec_bind (kind_of code l list_link nilKind linkKind kind) (fun v => Ret (v, h))
  | LLink => exec_bind (link_of l list_link) (fun v => Ret (v, h))
  | LHREF => exec_bind (string_getter l list_href) (fun v => Ret (v, h))
  | LGetHREF => exec_bind (string_probe l list_href) (fun v => Ret (v, h))
  | LLen => exec_bind (list_len h l) (fun n => Ret (VInt n, h))
  | LEmpty =>
    exec_bind
      (or_else (Ret (negb (not_nil l)))
        (exec_bind (list_len h l) (fun n => Ret (n =? 0)%Z)))
      (fun r => Ret (VBool r, h))
  | LGet => exec_bind (run_get h l (arg_i args)) (fun p => Ret (VItemPtr p, h))
  | LSlice => exec_bind (run_slice h l) (fun '(s, h1) => Ret (VSlice s, h1))
  | LEach =>
    match l with
    | None => Ret (VEachCalls [], h)
    | Some lo =>
      exec_bind (items_of h (list_items lo)) (fun d =>
        Ret (VEachCalls (each_loop (arg_each args) d), h))
    end
  | LRange =>
    match l with
    | None => Ret (VRangeCalls [], h)
    | Some lo =>
      exec_bind (items_of h (list_items lo)) (fun d =>
        Ret (VRangeCalls (range_loop (arg_range args) 0 d), h))
    end
  end.

(** A method on [*Metadata]. *)
Definition run_metadata (b : MetadataBody) (m : option MetadataObject) : Exec Value :=
  match b with
  | MServerVersion => string_getter m serverVersion
  | MGetServerVersion => string_probe m serverVersion
  end.

(** *** The selection table, and emptiness, as the specification words them *)

Inductive Form : Type :=
| ValueForm
| NullableForm
| ListContainerForm.

Inductive TableRow : Type :=
| RowScalar
| RowStruct
| RowList (link : bool)
| RowMap.

Definition table_field_form (row : TableRow) : Form :=
  match row with
  | RowScalar => NullableForm
  | RowStruct => NullableForm
  | RowList false => NullableForm
  | RowList true => ListContainerForm
  | RowMap => NullableForm
  end.

Definition table_getter_form (row : TableRow) : Form :=
  match row with
  | RowScalar => ValueForm
  | RowStruct => NullableForm
  | RowList false => NullableForm
  | RowList true => ListContainerForm
  | RowMap => NullableForm
  end.

(** The calculator's reference of a given form. *)
Definition form_reference (types : TypesCalculator) (form : Form) (typ : Type_)
    : option TypeReference :=
  match form with
  | ValueForm => ValueReference types typ
  | NullableForm => NullableReference types typ
  | ListContainerForm => ListReference types typ
  end.

(** The row of an attribute whose type is exactly one of scalar, struct,
    list and map. *)
Definition row_of (a : Attribute) : option TableRow :=
  let typ := Attribute_Type a in
  match IsScalar typ, IsStruct typ, IsList typ, IsMap typ with
  | true, false, false, false => Some RowScalar
  | false, true, false, false => Some RowStruct
  | false, false, true, false => Some (RowList (Attribute_Link a))
  | false, false, false, true => Some RowMap
  | _, _, _, _ => None
  end.

(** A field in its zero or empty state: a nil pointer, or a slice, list
    container or map of length zero. *)
Definition field_is_zero (h : Heap) (fv : FieldValue) : bool :=
  match fv with
  | FScalar p => negb (not_nil p)
  | FStruct p => negb (not_nil p)
  | FSlice s => match s with Some (_ :: _) => false | _ => true end
  | FList p =>
    match list_len h p with
    | Ret n => (n =? 0)%Z
    | Panic => false
    end
  | FMap m => match m with Some (_ :: _) => false | _ => true end
  end.

(** Every field of an object of struct type [typ] is in its zero or empty
    state: the fields of a class, and the field of each attribute. *)
Definition all_fields_zero (g : TypesGenerator) (h : Heap) (typ : Type_)
    (ob : Object) : bool :=
  (if IsClass typ
   then negb (not_nil (obj_id ob)) && negb (not_nil (obj_href ob)) && negb (obj_link ob)
   else true)
  && forallb
       (fun a =>
          match obj_fields ob !! fieldName g a with
          | Some fv => field_is_zero h fv
          | None => false
          end)
       (Attributes typ).

(** The three kind constants of a list container named [list_]. *)
Definition carries_list_kind_constants (code : list Decl) (list_ : string) : Prop :=
  In (DConst (list_ ++ "Kind") list_) code /\
  In (DConst (list_ ++ "LinkKind") (list_ ++ "Link")) code /\
  In (DConst (list_ ++ "NilKind") (list_ ++ "Nil")) code.

(** *** Results on a nil receiver, accessor by accessor *)

(** The generator [g'] has the calculators and the error count of [g]:
    the helpers and the templates change the reporter and the buffer only. *)
Definition same_settings (g g' : TypesGenerator) : Prop :=
  g_names g' = g_names g /\ g_types g' = g_types g /\ g_errors g' = g_errors g.

(** On a nil receiver: [Kind()] gives the value of the [NilKind] constant
    of the file, a getter of a scalar attribute the zero literal the
    calculator has for the attribute's type, a probing getter the zero value
    of the attribute's getter type and false. *)
Definition struct_result_on_nil (g : TypesGenerator) (typ : Type_)
    (code : list Decl) (receiver : string) (b : StructBody) (v : Value) : Prop :=
  match b with
  | BKind nilKind _ _ =>
    nilKind = receiver ++ "NilKind" /\
    exists s, lookup_const code nilKind = Some s /\ v = VString s
  | BID | BHREF => v = VString EmptyString
  | BGetID | BGetHREF => v = VPair (VString EmptyString) false
  | BLink => v = VBool false
  | BEmpty _ => v = VBool true
  | BGetterRef _ => v = VNil
  | BGetterScalar _ zero =>
    v = VLiteral zero /\
    exists a, In a (Attributes typ) /\ zero = ZeroValue (g_types g) (Attribute_Type a)
  | BProbeRef _ ty | BProbeScalar _ ty =>
    v = VPair (VZeroOf ty) false /\
    exists a, In a (Attributes typ) /\ ty = fst (getterType a g)
  end.

Definition list_result_on_nil (code : list Decl) (receiver : string)
    (b : ListBody) (v : Value) : Prop :=
  match b with
  | LKind nilKind _ _ =>
    nilKind = receiver ++ "NilKind" /\
    exists s, lookup_const code nilKind = Some s /\ v = VString s
  | LLink => v = VBool false
  | LHREF => v = VString EmptyString
  | LGetHREF => v = VPair (VString EmptyString) false
  | LLen => v = VInt 0
  | LEmpty => v = VBool true
  | LGet => v = VItemPtr None
  | LSlice => exists a, v = VSlice (Some a)
  | LEach => v = VEachCalls []
  | LRange => v = VRangeCalls []
  end.

Definition metadata_result_on_nil (b : MetadataBody) (v : Value) : Prop :=
  match b with
  | MServerVersion => v = VString EmptyString
  | MGetServerVersion => v = VPair (VString EmptyString) false
  end.

(** *** Reports, and objects of an emitted struct type *)

(** The calls a helper adds to the reporter when run from [g]. *)
Definition reported {A} (m : Gen A) (g : TypesGenerator) : list reporter.ErrorCall :=
  drop (length (reporter.calls (g_reporter g)))
       (reporter.calls (g_reporter (snd (m g)))).

(** The field of an attribute holds a value of the Go type the [Empty]
    conjunct of the attribute reads it at: a pointer to a scalar, a list
    container whose items are allocated, a slice, a map. *)
Definition field_has_shape (h : Heap) (a : Attribute) (fv : FieldValue) : bool :=
  if IsScalar (Attribute_Type a) then
    match fv with FScalar _ => true | _ => false end
  else if IsList (Attribute_Type a) then
    (if Attribute_Link a
     then match fv with
          | FList p => match list_len h p with Ret _ => true | Panic => false end
          | _ => false
          end
     else match fv with FSlice _ => true | _ => false end)
  else if IsMap (Attribute_Type a) then
    match fv with FMap _ => true | _ => false end
  else true.

(** An object of struct type [typ]: every attribute has its field, of the
    shape above. *)
Definition well_shaped (g : TypesGenerator) (h : Heap) (typ : Type_)
    (ob : Object) : bool :=
  forallb
    (fun a =>
       match obj_fields ob !! fieldName g a with
       | Some fv => field_has_shape h a fv
       | None => false
       end)
    (Attributes typ).

(** The identifier a [Kind()] method returns for a receiver. *)
Definition kind_text {A} (name : string) (o : option A) (link : A -> bool) : string :=
  match o with
  | None => name ++ "Nil"
  | Some ob => if link ob then name ++ "Link" else name
  end.

End Words.
End Generator.
End golang.

(** ** The server adapter

    The server tests drive adapters emitted by the server generator; neither
    the generator nor the emitted adapters are among the sources of this
    development.  The adapter is modelled from the specification's routing
    contract and per-method processing; the handlers of the test servers are
    taken from the tests. *)

Module server.

#[warnings="-register-all"] Inductive Json : Type :=
| JNull
| JNumber (n : Z)
| JString (s : string)
| JArray (items : list Json)
| JObject (members : list (string * Json)).

Definition json_member (name : string) (j : Json) : option Json :=
  match j with
  | JObject members => snd <$> find (fun m => String.eqb (fst m) name) members
  | _ => None
  end.

(** Modelled from the spec: the methods of a resource, [List], [Add], [Get],
    [Update], [Delete] and actions, with the verb and sub-path each maps to. *)
Inductive Method : Type :=
| List
| Add
| Get
| Update
| Delete
| Action (name : string).

Definition method_verb (m : Method) : string :=
  match m with
  | List => "GET"
  | Add => "POST"
  | Get => "GET"
  | Update => "PATCH"
  | Delete => "DELETE"
  | Action _ => "POST"
  end.

Definition is_action (m : Method) : bool :=
  match m with
  | Action _ => true
  | _ => false
  end.

Definition is_action_named (name : string) (m : Method) : bool :=
  match m with
  | Action n => String.eqb n name
  | _ => false
  end.

(** Modelled from the spec: a locator is a named reference to another
    resource; without an identifier it is a literal path segment, with one
    it is an [{id}] segment.  A resource owns methods and locators; a
    version owns resources, one of them the root. *)
Record Locator := mkLocator {
  locator_segment : string;
  locator_variable : bool;
  locator_target : string }.

Record Resource := mkResource {
  resource_name : string;
  resource_methods : list Method;
  resource_locators : list Locator }.

Record Version := mkVersion {
  version_resources : list Resource;
  version_root : string }.

Definition find_resource (v : Version) (name : string) : option Resource :=
  find (fun r => String.eqb (resource_name r) name) (version_resources v).

Definition find_literal (r : Resource) (segment : string) : option Locator :=
  find (fun l => negb (locator_variable l) && String.eqb (locator_segment l) segment)
    (resource_locators r).

Definition find_variable (r : Resource) : option Locator :=
  find locator_variable (resource_locators r).

Record HttpRequest := mkHttpRequest {
  http_method : string;
  http_path : string;
  http_query : list (string * string) }.

(** Modelled from the spec: the request and response objects handed to a
    method of the user's implementation.  The integer parameters are
    nullable; [Page()] and [Size()] read zero when unset, and the response
    starts empty. *)
Record ServerRequest := mkServerRequest {
  request_ids : list string;
  request_page : option Z;
  request_size : option Z }.

Definition Page (r : ServerRequest) : Z := default 0%Z (request_page r).
Definition Size (r : ServerRequest) : Z := default 0%Z (request_size r).

Record ServerResponse := mkServerResponse {
  response_items : option (list Json);
  response_page : option Z;
  response_size : option Z;
  response_total : option Z;
  response_body : option Json }.

Definition empty_response : ServerResponse :=
  {| response_items := None; response_page := None; response_size := None;
     response_total := None; response_body := None |}.

Definition set_items (items : list Json) (r : ServerResponse) : ServerResponse :=
  {| response_items := Some items; response_page := response_page r;
     response_size := response_size r; response_total := response_total r;
     response_body := response_body r |}.

Definition set_page (n : Z) (r : ServerResponse) : ServerResponse :=
  {| response_items := response_items r; response_page := Some n;
     response_size := response_size r; response_total := response_total r;
     response_body := response_body r |}.

Definition set_size (n : Z) (r : ServerResponse) : ServerResponse :=
  {| response_items := response_items r; response_page := response_page r;
     response_size := Some n; response_total := response_total r;
     response_body := response_body r |}.

Definition set_total (n : Z) (r : ServerResponse) : ServerResponse :=
  {| response_items := response_items r; response_page := response_page r;
     response_size := response_size r; response_total := Some n;
     response_body := response_body r |}.

Definition set_body (j : Json) (r : ServerResponse) : ServerResponse :=
  {| response_items := response_items r; response_page := response_page r;
     response_size := response_size r; response_total := response_total r;
     response_body := Some j |}.

(** Modelled from the spec: the methods of the user's implementation; for a
    resource and a method, what the method does with the request and the
    empty response: the response as it leaves it, and the error it
    returns.  The locator functions of the user's implementation
    ([Clusters()], [Cluster(id)], [IdentityProviders()] in the tests) only
    hand out the server of the sub-resource; they are accounted for by
    their calls, below. *)
Definition Implementation : Type :=
  string -> Method -> ServerRequest -> ServerResponse -> ServerResponse * option error.

(** One call of a method of the user's implementation. *)
Record Invocation := mkInvocation {
  invoked_resource : string;
  invoked_method : Method;
  invoked_request : ServerRequest }.

(** Modelled from the spec: one call of a locator function of the user's
    implementation: the resource whose server is asked, the locator, and
    the identifier bound from the path and passed to it, if the locator
    takes one. *)
Record LocatorCall := mkLocatorCall {
  located_from : string;
  located_by : string;
  located_id : option string }.

(** What a request leaves behind: the response, and the calls made on the
    user's implementation, locator functions first. *)
Record Outcome := mkOutcome {
  status : Z;
  body : option Json;
  located : list LocatorCall;
  invoked : list Invocation }.

Definition not_found : Outcome :=
  {| status := 404; body := None; located := []; invoked := [] |}.
Definition method_not_allowed : Outcome :=
  {| status := 405; body := None; located := []; invoked := [] |}.
Definition bad_request : Outcome :=
  {| status := 400; body := None; located := []; invoked := [] |}.

(** *** Paths and query parameters *)

(** The segments between the slashes of a string. *)
Fixpoint split_slash (s : string) : list string :=
  match s with
  | EmptyString => [""]
  | String c rest =>
    if Ascii.eqb c "/"%char then "" :: split_slash rest
    else match split_slash rest with
         | x :: xs => String c x :: xs
         | [] => [String c ""]
         end
  end.

(** Modelled from the spec: the root resource is at [/], which has no
    segment; the path of any other resource is one [/segment] for each
    locator crossed from the root, so that a longer path ending in [/] ends
    in an empty segment.  A path that does not start with [/] is no path. *)
Definition split_path (path : string) : option (list string) :=
  match path with
  | EmptyString => None
  | String c rest =>
    if Ascii.eqb c "/"%char
    then Some (match rest with
               | EmptyString => []
               | _ => split_slash rest
               end)
    else None
  end.

Fixpoint parse_digits (s : string) (acc : Z) : option Z :=
  match s with
  | EmptyString => Some acc
  | String c rest =>
    let n := Z.of_nat (Ascii.nat_of_ascii c) in
    if ((48 <=? n) && (n <=? 57))%Z then parse_digits rest (acc * 10 + (n - 48))%Z
    else None
  end.

Definition parse_int (s : string) : option Z :=
  match s with
  | EmptyString => None
  | String c rest =>
    if Ascii.eqb c "-"%char then
      match rest with
      | EmptyString => None
      | _ => Z.opp <$> parse_digits rest 0
      end
    else parse_digits s 0
  end.

(** Modelled from the spec: an integer query parameter is absent, well
    formed, or malformed ([None], answered 400). *)
Definition query_int (query : list (string * string)) (name : string)
    : option (option Z) :=
  match find (fun kv => String.eqb (fst kv) name) query with
  | None => Some None
  | Some kv =>
    match parse_int (snd kv) with
    | Some n => Some (Some n)
    | None => None
    end
  end.

(** *** Per-method processing *)

Definition optional_member (name : string) (v : option Json) : list (string * Json) :=
  match v with
  | Some j => [(name, j)]
  | None => []
  end.

(** Modelled from the spec: the envelope of a [List] response. *)
Definition list_envelope (r : ServerResponse) : Json :=
  JObject (optional_member "page" (JNumber <$> response_page r)
           ++ optional_member "size" (JNumber <$> response_size r)
           ++ optional_member "total" (JNumber <$> response_total r)
           ++ optional_member "items" (JArray <$> response_items r))%list.

Definition error_body (reason : string) : Json :=
  JObject [("kind", JString "Error"); ("id", JString "500"); ("reason", JString reason)].

(** Modelled from the spec: parse the query parameters of the method, build
    the request and an empty response, call the user's method, and write
    the response (200) or the error (500).  The locator functions on the
    way to the resource, [calls], are called here, to obtain the server
    whose method is called: the spec has unknown segments answered without
    side effects on the user's implementation, so nothing of it is called
    before the whole path has resolved. *)
Definition serve_method (impl : Implementation) (req : HttpRequest)
    (r : Resource) (ids : list string) (calls : list LocatorCall) (m : Method)
    : Outcome :=
  let params :=
    match m with
    | List =>
      match query_int (http_query req) "page", query_int (http_query req) "size" with
      | Some page, Some size => Some (page, size)
      | _, _ => None
      end
    | _ => Some (None, None)
    end in
  match params with
  | None => bad_request
  | Some (page, size) =>
    let request := {| request_ids := ids; request_page := page; request_size := size |} in
    let call := mkInvocation (resource_name r) m request in
    match impl (resource_name r) m request empty_response with
    | (response, None) =>
      {| status := 200;
         body := match m with
                 | List => Some (list_envelope response)
                 | _ => response_body response
                 end;
         located := calls;
         invoked := [call] |}
    | (_, Some e) =>
      {| status := 500; body := Some (error_body e); located := calls;
         invoked := [call] |}
    end
  end.

(** Modelled from the spec: the methods of a resource answer its own path,
    the first whose verb is the request's; 405 when the resource has
    methods but none with that verb, 404 when it has none. *)
Definition serve_resource (impl : Implementation) (req : HttpRequest)
    (r : Resource) (ids : list string) (calls : list LocatorCall) : Outcome :=
  let plain := filter (fun m => negb (is_action m)) (resource_methods r) in
  match find (fun m => String.eqb (method_verb m) (http_method req)) plain with
  | Some m => serve_method impl req r ids calls m
  | None =>
    match plain with
    | [] => not_found
    | _ => method_not_allowed
    end
  end.

(** Modelled from the spec: an action answers [POST] on its own segment. *)
Definition serve_action (impl : Implementation) (req : HttpRequest)
    (r : Resource) (ids : list string) (calls : list LocatorCall) (m : Method)
    : Outcome :=
  if String.eqb (http_method req) (method_verb m)
  then serve_method impl req r ids calls m
  else method_not_allowed.

(** Modelled from the spec: the walk over the segments of the path.  An
    empty segment matches nothing; a literal locator is tried first, then
    an action on the last segment, then the [{id}] locator, whose segment
    is the identifier passed to the locator function.  The walk collects
    the locator functions to call, in [calls]. *)
Fixpoint dispatch (v : Version) (impl : Implementation) (req : HttpRequest)
    (r : Resource) (ids : list string) (calls : list LocatorCall)
    (segments : list string) : Outcome :=
  match segments with
  | [] => serve_resource impl req r ids calls
  | s :: rest =>
    if String.eqb s "" then not_found else
    match find_literal r s with
    | Some l =>
      match find_resource v (locator_target l) with
      | Some target =>
        dispatch v impl req target ids
          (calls ++ [mkLocatorCall (resource_name r) (locator_segment l) None])%list
          rest
      | None => not_found
      end
    | None =>
      match rest, find (is_action_named s) (resource_methods r) with
      | [], Some m => serve_action impl req r ids calls m
      | _, _ =>
        match find_variable r with
        | Some l =>
          match find_resource v (locator_target l) with
          | Some target =>
            dispatch v impl req target (ids ++ [s])%list
              (calls ++ [mkLocatorCall (resource_name r) (locator_segment l) (Some s)])%list
              rest
          | None => not_found
          end
        | None => not_found
        end
      end
    end
  end.

(** Modelled from the spec: [ServeHTTP] of the root adapter walks the path
    from the root resource. *)
Definition ServeHTTP (v : Version) (impl : Implementation) (req : HttpRequest) : Outcome :=
  match split_path (http_path req), find_resource v (version_root v) with
  | Some segments, Some root => dispatch v impl req root [] [] segments
  | _, _ => not_found
  end.

(** *** Known paths, as the specification words them *)






(** *** The servers of the tests *)

Definition cluster_json (name : string) : Json :=
  JObject [("kind", JString "Cluster"); ("name", JString name)].

Definition identity_provider_json (name : string) : Json :=
  JObject [("kind", JString "IdentityProvider"); ("name", JString name)].

(** [MyTestClustersServer.List] *)
Definition MyTestClustersServer_List (request : ServerRequest)
    (response : ServerResponse) : ServerResponse * option error :=
  let items := [cluster_json "test-list-clusters"] in
  (set_total (Z.of_nat (length items))
     (set_size (Size request)
        (set_page (Page request)
           (set_items items response))),
   None).

(** [MyTestClusterServer.Get] *)
Definition MyTestClusterServer_Get (request : ServerRequest)
    (response : ServerResponse) : ServerResponse * option error :=
  (set_body (cluster_json "test-get-cluster-by-id") response, None).

(** [MyTestIdentityProvidersServer.List] *)
Definition MyTestIdentityProvidersServer_List (request : ServerRequest)
    (response : ServerResponse) : ServerResponse * option error :=
  let items := [identity_provider_json "test-list-identity-providers"] in
  (set_total 1 (set_size 1 (set_page 1 (set_items items response))), None).

(** The test servers, by resource and method; the other methods return nil
    without touching the response. *)
Definition MyTestRootServer : Implementation :=
  fun resource m request response =>
  match m with
  | List =>
    if String.eqb resource "Clusters" then MyTestClustersServer_List request response
    else if String.eqb resource "IdentityProviders"
    then MyTestIdentityProvidersServer_List request response
    else (response, None)
  | Get =>
    if String.eqb resource "Cluster" then MyTestClusterServer_Get request response
    else (response, None)
  | _ => (response, None)
  end.

(** The resources the test servers implement: the root locates the
    clusters, a cluster is located by identifier and locates its groups and
    identity providers. *)
Definition test_version : Version :=
  {| version_root := "Root";
     version_resources :=
       [ mkResource "Root" [] [mkLocator "clusters" false "Clusters"];
         mkResource "Clusters" [List; Add] [mkLocator "id" true "Cluster"];
         mkResource "Cluster" [Get; Update; Delete]
           [mkLocator "groups" false "Groups";
            mkLocator "identity_providers" false "IdentityProviders"];
         mkResource "IdentityProviders" [List; Add]
           [mkLocator "id" true "IdentityProvider"] ] |}.


Definition test_request (path : string) (query : list (string * string)) : HttpRequest :=
  {| http_method := "GET"; http_path := path; http_query := query |}.

End server.

(** ** Concrete calculators, types and generators for the examples *)

Module fixtures.
Import concepts golang.

(** References as the text they print; the zero reference prints nothing. *)
#[export] Instance text_reference : ReferenceType string :=
  {| zero_reference := EmptyString |}.

Definition test_names : NamesCalculator :=
  {| Public := String.concat EmptyString;
     Private := String.concat EmptyString;
     File := fun n => String.concat "_" n ++ ".go" |}.

Definition test_packages : PackagesCalculator :=
  {| VersionPackage := String.concat "/" |}.

Definition test_types : TypesCalculator :=
  {| ValueReference := fun t => Some (String.concat EmptyString (Type_Name t));
     NullableReference := fun t => Some ("*" ++ String.concat EmptyString (Type_Name t));
     ListReference := fun t => Some ("*" ++ String.concat EmptyString (Type_Name t) ++ "List");
     ZeroValue := fun _ => "zero";
     EnumName := fun t => String.concat EmptyString (Type_Name t) |}.

Definition test_words : nomenclator.Words :=
  {| nomenclator.List := ["List"];
     nomenclator.Metadata := ["Metadata"];
     nomenclator.Type_ := ["Type"] |}.

Definition plain_type (name : string) : Type_ :=
  {| Type_Name := [name]; Type_Doc := EmptyString; Type_Owner := ["v1"];
     IsScalar := false; IsEnum := false; IsStruct := false; IsClass := false;
     IsList := false; IsMap := false; Attributes := []; Values := [] |}.

Definition string_type : Type_ :=
  {| Type_Name := ["string"]; Type_Doc := EmptyString; Type_Owner := ["v1"];
     IsScalar := true; IsEnum := false; IsStruct := false; IsClass := false;
     IsList := false; IsMap := false; Attributes := []; Values := [] |}.

(** A type that is none of scalar, struct, list and map. *)
Definition odd_type : Type_ := plain_type "Odd".

Definition name_attribute : Attribute :=
  {| Attribute_Name := ["Name"]; Attribute_Doc := EmptyString;
     Attribute_Type := string_type; Attribute_Link := false |}.

Definition odd_attribute : Attribute :=
  {| Attribute_Name := ["Odd"]; Attribute_Doc := EmptyString;
     Attribute_Type := odd_type; Attribute_Link := false |}.

(** [struct Inner { Name string }] *)
Definition inner_type : Type_ :=
  {| Type_Name := ["Inner"]; Type_Doc := EmptyString; Type_Owner := ["v1"];
     IsScalar := false; IsEnum := false; IsStruct := true; IsClass := false;
     IsList := false; IsMap := false; Attributes := [name_attribute]; Values := [] |}.

Definition inner_attribute : Attribute :=
  {| Attribute_Name := ["Inner"]; Attribute_Doc := EmptyString;
     Attribute_Type := inner_type; Attribute_Link := false |}.

(** [struct Outer { Inner Inner }] *)
Definition outer_type : Type_ :=
  {| Type_Name := ["Outer"]; Type_Doc := EmptyString; Type_Owner := ["v1"];
     IsScalar := false; IsEnum := false; IsStruct := true; IsClass := false;
     IsList := false; IsMap := false; Attributes := [inner_attribute]; Values := [] |}.

Definition test_model : Model :=
  {| Services := [ {| Versions := [ {| Version_Ref := ["v1"];
                                       Types := [string_type; inner_type; outer_type] |} ] |} ] |}.

(** [NewTypesGenerator().Reporter(...).Model(...).Output("out")
    .Packages(...).Names(...).Types(...)] *)
Definition test_builder : TypesGeneratorBuilder :=
  Builder_Types (Some test_types)
    (Builder_Names (Some test_names)
       (Builder_Packages (Some test_packages)
          (Builder_Output "out"
             (Builder_Model (Some test_model)
                (Builder_Reporter (Some (reporter.mkReporter []))
                   NewTypesGenerator))))).

Definition test_generator : TypesGenerator :=
  {| g_reporter := reporter.mkReporter []; g_errors := 0; g_model := test_model;
     g_output := "out"; g_packages := test_packages; g_names := test_names;
     g_types := test_types; g_buffer := None |}.

(** The same generator with [n] errors counted. *)
Definition generator_with_errors (n : Z) : TypesGenerator :=
  {| g_reporter := reporter.mkReporter []; g_errors := n; g_model := test_model;
     g_output := "out"; g_packages := test_packages; g_names := test_names;
     g_types := test_types; g_buffer := None |}.

(** Buffers that always build and write. *)
Definition test_env : @BufferEnv string :=
  {| build_fails := fun _ _ _ => None; write_fails := fun _ => None |}.

(** An [Outer] whose [Inner] points to an object. *)
Definition outer_with_inner : Object :=
  {| obj_id := None; obj_href := None; obj_link := false;
     obj_fields := {[ "Inner" := FStruct (Some 7%nat) ]} |}.

(** The list type [[]Inner]. *)
Definition inner_list_type : Type_ :=
  {| Type_Name := ["Inner"; "List"]; Type_Doc := EmptyString; Type_Owner := ["v1"];
     IsScalar := false; IsEnum := false; IsStruct := false; IsClass := false;
     IsList := true; IsMap := false; Attributes := []; Values := [] |}.

Definition nodes_attribute : Attribute :=
  {| Attribute_Name := ["Nodes"]; Attribute_Doc := EmptyString;
     Attribute_Type := inner_list_type; Attribute_Link := true |}.

(** [class Cluster { Name string; Inner Inner; link Nodes []Inner }] *)
Definition cluster_type : Type_ :=
  {| Type_Name := ["Cluster"]; Type_Doc := EmptyString; Type_Owner := ["v1"];
     IsScalar := false; IsEnum := false; IsStruct := true; IsClass := true;
     IsList := false; IsMap := false;
     Attributes := [name_attribute; inner_attribute; nodes_attribute];
     Values := [] |}.

Definition test_args : Args :=
  {| arg_i := 0; arg_each := fun _ => true; arg_range := fun _ _ => true |}.

(** A heap with one array of two items, and a list over it. *)
Definition test_heap : Heap := {[ 0%nat := [Some 5%nat; None] ]}.

Definition test_list : ListObject :=
  {| list_href := None; list_link := false; list_items := Some 0%nat |}.

(** [struct Odd { Odd Odd }], with an attribute of a type of no known kind,
    a model that holds it, and the builder of a generator for that model. *)
Definition odd_struct_type : Type_ :=
  {| Type_Name := ["OddHolder"]; Type_Doc := EmptyString; Type_Owner := ["v1"];
     IsScalar := false; IsEnum := false; IsStruct := true; IsClass := false;
     IsList := false; IsMap := false; Attributes := [odd_attribute]; Values := [] |}.

Definition odd_model : Model :=
  {| Services := [ {| Versions := [] |};
                   {| Versions := [ {| Version_Ref := ["v1"];
                                       Types := [odd_struct_type] |} ] |} ] |}.

Definition odd_builder : TypesGeneratorBuilder :=
  Builder_Types (Some test_types)
    (Builder_Names (Some test_names)
       (Builder_Packages (Some test_packages)
          (Builder_Output "out"
             (Builder_Model (Some odd_model)
                (Builder_Reporter (Some (reporter.mkReporter []))
                   NewTypesGenerator))))).

Definition odd_generator : TypesGenerator :=
  {| g_reporter := reporter.mkReporter []; g_errors := 0; g_model := odd_model;
     g_output := "out"; g_packages := test_packages; g_names := test_names;
     g_types := test_types; g_buffer := None |}.

(** Buffers that never build. *)
Definition failing_env : @BufferEnv string :=
  {| build_fails := fun _ _ _ => Some "cannot create file";
     write_fails := fun _ => None |}.

(** A model without versions. *)
Definition empty_model : Model := {| Services := [ {| Versions := [] |} ] |}.

Definition empty_generator (n : Z) : TypesGenerator :=
  {| g_reporter := reporter.mkReporter []; g_errors := n; g_model := empty_model;
     g_output := "out"; g_packages := test_packages; g_names := test_names;
     g_types := test_types; g_buffer := None |}.

(** The type of [tests/model/authorizations/v1/resource_review_type.model]:
    [struct ResourceReview] with three string attributes and three
    [[]string] attributes. *)
Definition string_list_type : Type_ :=
  {| Type_Name := ["string"; "List"]; Type_Doc := EmptyString; Type_Owner := ["v1"];
     IsScalar := false; IsEnum := false; IsStruct := false; IsClass := false;
     IsList := true; IsMap := false; Attributes := []; Values := [] |}.

Definition review_attribute (name : list string) (typ : Type_) : Attribute :=
  {| Attribute_Name := name; Attribute_Doc := EmptyString;
     Attribute_Type := typ; Attribute_Link := false |}.

Definition resource_review_type : Type_ :=
  {| Type_Name := ["Resource"; "Review"]; Type_Doc := EmptyString;
     Type_Owner := ["v1"];
     IsScalar := false; IsEnum := false; IsStruct := true; IsClass := false;
     IsList := false; IsMap := false;
     Attributes :=
       [ review_attribute ["Account"; "Username"] string_type;
         review_attribute ["Action"] string_type;
         review_attribute ["Resource"; "Type"] string_type;
         review_attribute ["Cluster"; "IDs"] string_list_type;
         review_attribute ["Subscription"; "IDs"] string_list_type;
         review_attribute ["Organization"; "IDs"] string_list_type ];
     Values := [] |}.

(** A review with the given account name and cluster identifiers, and
    nothing else. *)
Definition review (account : option Scalar) (clusters : option (list Item)) : Object :=
  {| obj_id := None; obj_href := None; obj_link := false;
     obj_fields :=
       list_to_map
         [ ("AccountUsername", FScalar account);
           ("Action", FScalar None);
           ("ResourceType", FScalar None);
           ("ClusterIDs", FSlice clusters);
           ("SubscriptionIDs", FSlice None);
           ("OrganizationIDs", FSlice None) ] |}.

(** A heap with one array of three items, a list over it, and callbacks
    that stop: at the first nil item, and at index 1. *)
Definition three_heap : Heap := {[ 0%nat := [Some 5%nat; None; Some 6%nat] ]}.

Definition stopping_args : Args :=
  {| arg_i := 1;
     arg_each := fun p => match p with Some _ => true | None => false end;
     arg_range := fun i _ => (i <? 1)%Z |}.

(** A builder with the reporter and the model set, and nothing else. *)
Definition partial_builder : @TypesGeneratorBuilder string :=
  Builder_Model (Some test_model)
    (Builder_Reporter (Some (reporter.mkReporter [])) NewTypesGenerator).

(** The file of [Outer], a struct that is not a class, and the file of
    [Cluster], a class. *)
Definition outer_source : list Decl :=
  fst (structTypeSource test_words outer_type test_generator).

Definition cluster_source : list Decl :=
  fst (structTypeSource test_words cluster_type test_generator).

End fixtures.

(** * Properties *)

Module golang_facts.
Import concepts golang.

Section Facts.
Context {TypeReference : Type} {RT : ReferenceType TypeReference}.

(** C7.  [Build] fails, returning no generator, as soon as the reporter, the
    model, the output, the packages calculator, the names calculator or the
    types calculator is unset; with all six set it returns, without error,
    a generator that carries exactly those six values. *)
Theorem Build_checks_configuration (b : @TypesGeneratorBuilder TypeReference) :
  (b_reporter b = None \/ b_model b = None \/ b_output b = EmptyString \/
   b_packages b = None \/ b_names b = None \/ b_types b = None ->
   exists e, Build b = (None, Some e)) /\
  (forall rep model packages names types,
     b_reporter b = Some rep -> b_model b = Some model ->
     b_output b <> EmptyString ->
     b_packages b = Some packages -> b_names b = Some names ->
     b_types b = Some types ->
     exists g : @TypesGenerator TypeReference, Build b = (Some g, None) /\
       g_reporter g = rep /\ g_model g = model /\ g_output g = b_output b /\
       g_packages g = packages /\ g_names g = names /\ g_types g = types).
Proof.
  split.
  - intros H. unfold Build.
    destruct (b_reporter b); [|eauto].
    destruct (b_model b); [|eauto].
    destruct (String.eqb_spec (b_output b) EmptyString) as [He|He]; [eauto|].
    destruct (b_packages b); [|eauto].
    destruct (b_names b); [|eauto].
    destruct (b_types b); [|eauto].
    exfalso. destruct H as [H|[H|[H|[H|[H|H]]]]]; congruence.
  - intros rep model packages names types Hr Hm Ho Hp Hn Ht.
    unfold Build. rewrite Hr, Hm, Hp, Hn, Ht.
    destruct (String.eqb_spec (b_output b) EmptyString) as [He|He]; [congruence|].
    eexists. split; [reflexivity|]. simpl. repeat split; reflexivity.
Qed.

Section RunFacts.
Variable words : nomenclator.Words.
Variable Name_String : Name -> string.
Variable env : @BufferEnv TypeReference.

(** C4.  When the loops of [Run] finish without a failed step, [Run] fails
    with "there was 1 error" if the error count is exactly 1, with
    "there were N errors" if the count N is greater than 1, and returns no
    error if the count is zero. *)
Theorem Run_reports_error_count (g g1 : @TypesGenerator TypeReference) :
  run_services words Name_String env g = (None, g1) ->
  (g_errors g1 = 1%Z ->
   Run words Name_String env g = (Some "there was 1 error", g1)) /\
  ((g_errors g1 > 1)%Z ->
   Run words Name_String env g =
     (Some ("there were " ++ fmt_d (g_errors g1) ++ " errors"), g1)) /\
  (g_errors g1 = 0%Z ->
   Run words Name_String env g = (None, g1)).
Proof.
  intros Hloop. unfold Run. rewrite Hloop.
  repeat split; intros Hn.
  - rewrite Hn. reflexivity.
  - destruct (Z.gtb_spec (g_errors g1) 0); [|lia].
    destruct (Z.gtb_spec (g_errors g1) 1); [reflexivity|lia].
  - rewrite Hn. reflexivity.
Qed.

End RunFacts.

(** C10.  [getterType] and [fieldType] always return a reference, never
    nil; for an attribute whose type is none of scalar, struct, list and
    map each returns the empty reference [&TypeReference{}] and leaves one
    more record in the reporter than it found: its own error, with the
    attribute, after the records that were there. *)
Theorem helper_types_never_nil (a : Attribute) (g : @TypesGenerator TypeReference) :
  (exists r, fst (getterType a g) = Some r) /\
  (exists r, fst (fieldType a g) = Some r) /\
  (IsScalar (Attribute_Type a) = false -> IsStruct (Attribute_Type a) = false ->
   IsList (Attribute_Type a) = false -> IsMap (Attribute_Type a) = false ->
   (fst (getterType a g) = Some zero_reference /\
    reporter.calls (g_reporter (snd (getterType a g)))
    = (reporter.calls (g_reporter g)
       ++ [reporter.mkErrorCall
             "Don't know how to calculate getter type for attribute '%s'" a])%list) /\
   (fst (fieldType a g) = Some zero_reference /\
    reporter.calls (g_reporter (snd (fieldType a g)))
    = (reporter.calls (g_reporter g)
       ++ [reporter.mkErrorCall
             "Don't know how to calculate field type for attribute '%s'" a])%list)).
Proof.
  split; [|split].
  - unfold getterType, or_report.
    match goal with |- context [match ?r with Some _ => _ | None => _ end] =>
      destruct r end; simpl; eauto.
  - unfold fieldType, or_report.
    match goal with |- context [match ?r with Some _ => _ | None => _ end] =>
      destruct r end; simpl; eauto.
  - intros Hs Ht Hl Hm. unfold getterType, fieldType.
    rewrite Hs, Ht, Hl, Hm. simpl. repeat split; reflexivity.
Qed.

(** C1.  For an attribute whose type is one of scalar, struct, list and
    map, the field form and the getter form are those of the selection
    table: whenever the types calculator has a reference of the table's
    form for the attribute's type, [fieldType] and [getterType] return that
    reference, and report nothing. *)
Theorem reference_forms_obey_table (a : Attribute) (row : TableRow)
    (g : @TypesGenerator TypeReference) :
  row_of a = Some row ->
  (forall r,
     form_reference (g_types g) (table_field_form row) (Attribute_Type a) = Some r ->
     fieldType a g = (Some r, g)) /\
  (forall r,
     form_reference (g_types g) (table_getter_form row) (Attribute_Type a) = Some r ->
     getterType a g = (Some r, g)).
Proof.
  unfold row_of, fieldType, getterType.
  destruct (IsScalar (Attribute_Type a)), (IsStruct (Attribute_Type a)),
    (IsList (Attribute_Type a)), (IsMap (Attribute_Type a));
    intros Hrow; inversion Hrow; subst row; clear Hrow;
    try destruct (Attribute_Link a); simpl;
    split; intros r Hr; rewrite Hr; reflexivity.
Qed.

(** *** The declarations of a struct file *)

Lemma getterType_keeps_settings (a : Attribute) (g : @TypesGenerator TypeReference) :
  same_settings g (snd (getterType a g)).
Proof.
  unfold getterType, or_report.
  match goal with |- context [match ?r with Some _ => _ | None => _ end] =>
    destruct r end; repeat split; reflexivity.
Qed.

Lemma fieldType_keeps_settings (a : Attribute) (g : @TypesGenerator TypeReference) :
  same_settings g (snd (fieldType a g)).
Proof.
  unfold fieldType, or_report.
  match goal with |- context [match ?r with Some _ => _ | None => _ end] =>
    destruct r end; repeat split; reflexivity.
Qed.

Lemma getterType_reads_types (a : Attribute) (g g' : @TypesGenerator TypeReference) :
  same_settings g g' -> fst (getterType a g') = fst (getterType a g).
Proof.
  intros (_ & Ht & _). unfold getterType, or_report. rewrite Ht.
  match goal with |- context [match ?r with Some _ => _ | None => _ end] =>
    destruct r end; reflexivity.
Qed.

Lemma same_settings_refl (g : @TypesGenerator TypeReference) :
  same_settings g g.
Proof. repeat split; reflexivity. Qed.

Lemma same_settings_trans (g g1 g2 : @TypesGenerator TypeReference) :
  same_settings g g1 -> same_settings g1 g2 -> same_settings g g2.
Proof. intros (Hn & Ht & He) (Hn' & Ht' & He'). repeat split; congruence. Qed.

(** [gen_map] over helpers that leave the calculators alone. *)
Lemma gen_map_keeps_settings {A B} (f : A -> @Gen TypeReference B) (l : list A) :
  (forall a g, same_settings g (snd (f a g))) ->
  forall g, same_settings g (snd (gen_map f l g)).
Proof.
  intros Hf. induction l as [|a l IH]; intros g; simpl.
  - apply same_settings_refl.
  - unfold gen_bind, gen_ret.
    pose proof (Hf a g) as Ha. destruct (f a g) as [b g1].
    pose proof (IH g1) as Hl. destruct (gen_map f l g1) as [bs g2].
    simpl in *. eapply same_settings_trans; eassumption.
Qed.

Lemma gen_map_elements {A B} (f : A -> @Gen TypeReference B) (l : list A) :
  (forall a g, same_settings g (snd (f a g))) ->
  forall g x, In x (fst (gen_map f l g)) ->
  exists a g', In a l /\ same_settings g g' /\ x = fst (f a g').
Proof.
  intros Hf. induction l as [|a l IH]; intros g x Hx; simpl in *.
  - contradiction.
  - unfold gen_bind, gen_ret in Hx.
    pose proof (Hf a g) as Hkeep.
    destruct (f a g) as [b g1] eqn:Heq.
    destruct (gen_map f l g1) as [bs g2] eqn:Hm. simpl in Hx, Hkeep.
    destruct Hx as [<-|Hx].
    + exists a, g. rewrite Heq.
      split; [auto|]. split; [apply same_settings_refl|reflexivity].
    + destruct (IH g1 x) as (a' & g' & Ha & Hsame & Hx'); [rewrite Hm; exact Hx|].
      exists a', g'. split; [auto|]. split; [|exact Hx'].
      eapply same_settings_trans; eassumption.
Qed.

Lemma structField_keeps_settings (a : Attribute) (g : @TypesGenerator TypeReference) :
  same_settings g (snd (structField a g)).
Proof.
  unfold structField. pose proof (fieldType_keeps_settings a g) as H.
  destruct (fieldType a g). exact H.
Qed.

Lemma attributeGetters_keeps_settings object (a : Attribute)
    (g : @TypesGenerator TypeReference) :
  same_settings g (snd (attributeGetters object a g)).
Proof.
  unfold attributeGetters. pose proof (getterType_keeps_settings a g) as H.
  destruct (getterType a g). exact H.
Qed.

Lemma lookup_const_declared (code : list (@Decl TypeReference)) name value :
  In (DConst name value) code -> exists s, lookup_const code name = Some s.
Proof.
  induction code as [|d code IH]; intros Hin; [contradiction|].
  destruct Hin as [->|Hin].
  - simpl. rewrite String.eqb_refl. eauto.
  - destruct d; simpl; auto.
    destruct (String.eqb name0 name); eauto.
Qed.

Section SourceFacts.
Variable words : nomenclator.Words.

(** Where a declaration of the struct template comes from. *)
Lemma structTypeSource_declaration (typ : Type_) (g : @TypesGenerator TypeReference) d :
  In d (fst (structTypeSource words typ g)) ->
  (IsClass typ = true /\ In d (structConstants (objectName g typ))) \/
  (exists fields, d = DStruct (objectName g typ) fields) \/
  (IsClass typ = true /\ In d (classMethods (objectName g typ))) \/
  d = DStructMethod (objectName g typ) "Empty" (BEmpty (emptyConds g typ)) \/
  (exists a g', In a (Attributes typ) /\ same_settings g g' /\
     In d (fst (attributeGetters (objectName g typ) a g'))) \/
  In d (listConstants (listName words g typ)) \/
  (exists fields, d = DStruct (listName words g typ) fields) \/
  (IsClass typ = true /\ In d (listClassMethods (listName words g typ))) \/
  In d (listMethods (listName words g typ)).
Proof.
  unfold structTypeSource.
  destruct (gen_map structField (Attributes typ) g) as [fields g1] eqn:Hfields.
  destruct (gen_map (attributeGetters (objectName g typ)) (Attributes typ) g1)
    as [getters g2] eqn:Hgetters.
  cbn [fst]. rewrite !in_app_iff.
  intros [H|[H|[H|[H|[H|[H|[H|[H|H]]]]]]]].
  - left. destruct (IsClass typ); [auto|contradiction].
  - right; left. destruct H as [<-|[]]. eauto.
  - right; right; left. destruct (IsClass typ); [auto|contradiction].
  - right; right; right; left. destruct H as [<-|[]]. reflexivity.
  - right; right; right; right; left.
    apply in_concat in H. destruct H as (ds & Hds & Hd).
    destruct (gen_map_elements (attributeGetters (objectName g typ)) (Attributes typ)
                (attributeGetters_keeps_settings (objectName g typ)) g1 ds)
      as (a & g' & Ha & Hsame & ->); [rewrite Hgetters; exact Hds|].
    exists a, g'. split; [exact Ha|]. split; [|exact Hd].
    eapply same_settings_trans; [|exact Hsame].
    pose proof (gen_map_keeps_settings structField (Attributes typ)
                  structField_keeps_settings g) as Hk.
    rewrite Hfields in Hk. exact Hk.
  - do 5 right; left. exact H.
  - do 6 right; left. destruct H as [<-|[]]. eauto.
  - do 7 right; left. destruct (IsClass typ); [auto|contradiction].
  - do 8 right. exact H.
Qed.

Lemma listConstants_emitted (typ : Type_) (g : @TypesGenerator TypeReference) d :
  In d (listConstants (listName words g typ)) ->
  In d (fst (structTypeSource words typ g)).
Proof.
  intros H. unfold structTypeSource.
  destruct (gen_map structField (Attributes typ) g) as [fields g1].
  destruct (gen_map (attributeGetters (objectName g typ)) (Attributes typ) g1)
    as [getters g2].
  cbn [fst]. rewrite !in_app_iff. do 5 right. left. exact H.
Qed.

Lemma structConstants_emitted (typ : Type_) (g : @TypesGenerator TypeReference) d :
  IsClass typ = true ->
  In d (structConstants (objectName g typ)) ->
  In d (fst (structTypeSource words typ g)).
Proof.
  intros Hc H. unfold structTypeSource.
  destruct (gen_map structField (Attributes typ) g) as [fields g1].
  destruct (gen_map (attributeGetters (objectName g typ)) (Attributes typ) g1)
    as [getters g2].
  cbn [fst]. rewrite Hc. rewrite !in_app_iff. left. exact H.
Qed.

Lemma listClassMethods_emitted (typ : Type_) (g : @TypesGenerator TypeReference) d :
  IsClass typ = true ->
  In d (listClassMethods (listName words g typ)) ->
  In d (fst (structTypeSource words typ g)).
Proof.
  intros Hc H. unfold structTypeSource.
  destruct (gen_map structField (Attributes typ) g) as [fields g1].
  destruct (gen_map (attributeGetters (objectName g typ)) (Attributes typ) g1)
    as [getters g2].
  cbn [fst]. rewrite Hc. rewrite !in_app_iff. do 7 right. left. exact H.
Qed.

(** C3, as the code has it.  The kind constants of the list container are
    emitted for every struct type, class or not; what depends on class is
    the list's [Kind()] method, emitted exactly when the struct is class. *)
Theorem list_kind_constants_always_emitted (typ : Type_)
    (g : @TypesGenerator TypeReference) :
  carries_list_kind_constants (fst (structTypeSource words typ g))
    (listName words g typ) /\
  ((exists b, In (DListMethod (listName words g typ) "Kind" b)
                (fst (structTypeSource words typ g)))
   <-> IsClass typ = true).
Proof.
  split.
  - unfold carries_list_kind_constants.
    repeat split; apply listConstants_emitted; simpl; auto.
  - split.
    + intros [b Hb]. apply structTypeSource_declaration in Hb.
      destruct Hb as [[_ H]|[[? H]|[[_ H]|[H|[(a & g' & _ & _ & H)|[H|[[? H]|[[Hc _]|H]]]]]]]];
        try discriminate; try exact Hc.
      * simpl in H. intuition discriminate.
      * simpl in H. intuition discriminate.
      * unfold attributeGetters in H. destruct (getterType a g'). simpl in H.
        intuition discriminate.
      * simpl in H. intuition discriminate.
      * simpl in H. intuition discriminate.
    + intros Hc. eexists. apply listClassMethods_emitted; [exact Hc|].
      simpl. left. reflexivity.
Qed.

(** C8.  Every accessor emitted on a struct type, on its list container and
    on [Metadata] returns, without panicking, on a nil receiver: [Kind()]
    the value of the [NilKind] constant, [ID()], [HREF()] and
    [ServerVersion()] the empty string, getters of scalar attributes the
    calculator's zero literal and the other getters nil, probing getters
    the zero value and false, [Link()] false, [Len()] 0, [Empty()] true,
    [Get(i)] nil, [Slice()] a slice, and [Each] and [Range] without a call
    of the callback. *)
Theorem accessors_total_on_nil (typ : Type_) (g : @TypesGenerator TypeReference)
    (h : Heap) (args : Args) :
  (forall d, In d (fst (structTypeSource words typ g)) ->
     match d with
     | DStructMethod receiver _ b =>
       exists v, run_struct (fst (structTypeSource words typ g)) h b None = Ret v /\
                 struct_result_on_nil g typ (fst (structTypeSource words typ g))
                   receiver b v
     | DListMethod receiver _ b =>
       exists v h',
         run_list (fst (structTypeSource words typ g)) h b None args = Ret (v, h') /\
         list_result_on_nil (fst (structTypeSource words typ g)) receiver b v
     | _ => True
     end) /\
  (forall d, In d (@versionMetadataTypeSource TypeReference) ->
     match d with
     | DMetadataMethod _ b =>
       exists v : @Value TypeReference,
         run_metadata b None = Ret v /\ metadata_result_on_nil b v
     | _ => True
     end).
Proof.
  split.
  - intros d Hd. apply structTypeSource_declaration in Hd.
    destruct Hd as [[_ H]|[[? ->]|[[Hc H]|[->|[(a & g' & Ha & Hsame & H)|[H|[[? ->]|[[Hc H]|H]]]]]]]];
      try exact I.
    + simpl in H. destruct H as [<-|[<-|[<-|[]]]]; exact I.
    + destruct (lookup_const_declared (fst (structTypeSource words typ g))
                  (objectName g typ ++ "NilKind") (objectName g typ ++ "Nil"))
        as [s Hs].
      { apply structConstants_emitted; [exact Hc|]. simpl. auto. }
      simpl in H.
      destruct H as [<-|[<-|[<-|[<-|[<-|[<-|[]]]]]]];
        try (eexists; split; reflexivity).
      exists (VString s). split.
      * unfold run_struct, kind_of, constant. rewrite Hs. reflexivity.
      * split; [reflexivity|]. eauto.
    + exists (VBool true). split; reflexivity.
    + pose proof (getterType_reads_types a g g' Hsame) as Hty.
      unfold attributeGetters in H. destruct (getterType a g') as [ref g1].
      simpl in H, Hty. destruct Hsame as (_ & Htypes & _).
      destruct H as [<-|[<-|[]]];
        destruct (IsStruct (Attribute_Type a) || IsList (Attribute_Type a)
                  || IsMap (Attribute_Type a));
        eexists; (split; [reflexivity|]); simpl;
        try reflexivity; (split; [reflexivity|]);
        exists a; (split; [exact Ha|]); congruence.
    + simpl in H. destruct H as [<-|[<-|[<-|[]]]]; exact I.
    + destruct (lookup_const_declared (fst (structTypeSource words typ g))
                  (listName words g typ ++ "NilKind") (listName words g typ ++ "Nil"))
        as [s Hs].
      { apply listConstants_emitted. simpl. auto. }
      simpl in H.
      destruct H as [<-|[<-|[<-|[<-|[]]]]];
        try (eexists _, _; split; reflexivity).
      exists (VString s), h. split.
      * unfold run_list, kind_of, constant. rewrite Hs. reflexivity.
      * split; [reflexivity|]. eauto.
    + simpl in H.
      destruct H as [<-|[<-|[<-|[<-|[<-|[<-|[]]]]]]];
        try (eexists _, _; split; reflexivity).
      eexists _, _. split; [reflexivity|]. eexists. reflexivity.
  - intros d Hd. simpl in Hd.
    destruct Hd as [<-|[<-|[<-|[]]]]; try exact I;
      eexists; split; reflexivity.
Qed.

End SourceFacts.

(** *** The error count across [Run]

    Nothing [Run] calls assigns [g.errors]: the count it looks at after the
    loops is the one the generator started with. *)

Section RunLoop.
Variable words : nomenclator.Words.
Variable Name_String : Name -> string.
Variable env : @BufferEnv TypeReference.

Lemma set_buffer_keeps_settings (g : @TypesGenerator TypeReference) b :
  same_settings g (set_buffer g b).
Proof. repeat split; reflexivity. Qed.

Lemma structTypeSource_keeps_settings (typ : Type_) (g : @TypesGenerator TypeReference) :
  same_settings g (snd (structTypeSource words typ g)).
Proof.
  unfold structTypeSource.
  pose proof (gen_map_keeps_settings structField (Attributes typ)
                structField_keeps_settings g) as H1.
  destruct (gen_map structField (Attributes typ) g) as [fields g1].
  pose proof (gen_map_keeps_settings (attributeGetters (objectName g typ))
                (Attributes typ)
                (attributeGetters_keeps_settings (objectName g typ)) g1) as H2.
  destruct (gen_map (attributeGetters (objectName g typ)) (Attributes typ) g1)
    as [getters g2].
  simpl in *. eapply same_settings_trans; eassumption.
Qed.

Lemma generateTypeSource_keeps_settings (typ : Type_) (g : @TypesGenerator TypeReference) :
  same_settings g (snd (generateTypeSource words Name_String typ g)).
Proof.
  unfold generateTypeSource.
  destruct (IsEnum typ); [apply set_buffer_keeps_settings|].
  destruct (IsStruct typ); [|apply same_settings_refl].
  unfold generateStructTypeSource, gen_bind, on_buffer.
  pose proof (structTypeSource_keeps_settings typ
                (set_buffer g ((fun b => Import b "time" EmptyString) <$> g_buffer g)))
    as H.
  destruct (structTypeSource words typ _) as [code g1]. simpl in *.
  eapply same_settings_trans; [apply set_buffer_keeps_settings|].
  eapply same_settings_trans; [exact H|apply set_buffer_keeps_settings].
Qed.

Lemma writeBuffer_keeps_settings (g : @TypesGenerator TypeReference) :
  same_settings g (snd (writeBuffer env g)).
Proof. unfold writeBuffer. destruct (g_buffer g); apply same_settings_refl. Qed.

Lemma generateTypeFile_keeps_settings (typ : Type_) (g : @TypesGenerator TypeReference) :
  same_settings g (snd (generateTypeFile words Name_String env typ g)).
Proof.
  unfold generateTypeFile.
  destruct (newBuffer env g _ _) as [buffer [e|]]; simpl.
  - apply set_buffer_keeps_settings.
  - pose proof (generateTypeSource_keeps_settings typ (set_buffer g buffer)) as H.
    destruct (generateTypeSource words Name_String typ (set_buffer g buffer)) as [u g2].
    simpl in H.
    eapply same_settings_trans; [apply set_buffer_keeps_settings|].
    eapply same_settings_trans; [exact H|apply writeBuffer_keeps_settings].
Qed.

Lemma generateVersionMetadataTypeFile_keeps_settings (version : Version)
    (g : @TypesGenerator TypeReference) :
  same_settings g (snd (generateVersionMetadataTypeFile words env version g)).
Proof.
  unfold generateVersionMetadataTypeFile.
  destruct (newBuffer env g _ _) as [buffer [e|]]; simpl.
  - apply set_buffer_keeps_settings.
  - eapply same_settings_trans; [apply set_buffer_keeps_settings|].
    eapply same_settings_trans; [|apply writeBuffer_keeps_settings].
    apply set_buffer_keeps_settings.
Qed.

Lemma for_each_keeps_settings {A} (body : A -> @Gen TypeReference (option error))
    (l : list A) :
  (forall a g, same_settings g (snd (body a g))) ->
  forall g, same_settings g (snd (for_each body l g)).
Proof.
  intros Hbody. induction l as [|a l IH]; intros g; simpl.
  - apply same_settings_refl.
  - pose proof (Hbody a g) as Ha. destruct (body a g) as [[e|] g1]; simpl in *.
    + exact Ha.
    + eapply same_settings_trans; [exact Ha|apply IH].
Qed.

Lemma run_services_keeps_settings (g : @TypesGenerator TypeReference) :
  same_settings g (snd (run_services words Name_String env g)).
Proof.
  unfold run_services.
  apply for_each_keeps_settings. intros service g0.
  apply for_each_keeps_settings. intros version g1.
  unfold run_version.
  pose proof (generateVersionMetadataTypeFile_keeps_settings version g1) as Hm.
  destruct (generateVersionMetadataTypeFile words env version g1) as [[e|] g2];
    simpl in *; [exact Hm|].
  eapply same_settings_trans; [exact Hm|].
  apply for_each_keeps_settings. intros typ g3.
  unfold run_type.
  destruct (IsEnum typ || IsStruct typ);
    [apply generateTypeFile_keeps_settings|apply same_settings_refl].
Qed.

Lemma run_services_keeps_error_count (g : @TypesGenerator TypeReference) :
  g_errors (snd (run_services words Name_String env g)) = g_errors g.
Proof. apply run_services_keeps_settings. Qed.

End RunLoop.

(** *** [Slice()] *)

Lemma fresh_not_allocated (h : Heap) : h !! fresh (dom h) = None.
Proof. apply not_elem_of_dom, is_fresh. Qed.

Lemma copy_items_fresh (src : list (option loc)) :
  copy_items (replicate (length src) None) src = src.
Proof.
  unfold copy_items. rewrite length_replicate, Nat.min_id.
  rewrite firstn_all. rewrite drop_ge; [|rewrite length_replicate; lia].
  apply app_nil_r.
Qed.

(** Reading a slice that was there before, in a heap where a fresh array
    was written. *)
Lemma items_of_other (h : Heap) (a : loc) d s src :
  h !! a = None -> items_of h s = Ret src -> items_of (<[a := d]> h) s = Ret src.
Proof.
  intros Ha Hs. destruct s as [b|]; simpl in *; [|exact Hs].
  destruct (decide (a = b)) as [->|Hne].
  - rewrite Ha in Hs. discriminate.
  - rewrite lookup_insert_ne; [exact Hs|exact Hne].
Qed.

(** C9.  [Slice()] on a nil list returns a slice that is not nil and has
    length 0.  On a list it returns a slice backed by a newly allocated
    array holding the list's items; storing into the returned slice leaves
    the list's own items as they were. *)
Theorem Slice_returns_fresh_copy (h : Heap) :
  (exists a h',
     run_slice h None = Ret (Some a, h') /\
     h !! a = None /\
     items_of h' (Some a) = Ret []) /\
  (forall lo src,
     items_of h (list_items lo) = Ret src ->
     exists a h',
       run_slice h (Some lo) = Ret (Some a, h') /\
       h !! a = None /\
       items_of h' (Some a) = Ret src /\
       items_of h' (list_items lo) = Ret src /\
       forall i v h'',
         store_item h' (Some a) i v = Ret h'' ->
         items_of h'' (Some a) = Ret (<[i := v]> src) /\
         items_of h'' (list_items lo) = Ret src).
Proof.
  split.
  - exists (fresh (dom h)), (<[fresh (dom h) := []]> h).
    split; [reflexivity|]. split; [apply fresh_not_allocated|].
    simpl. rewrite lookup_insert_eq. reflexivity.
  - intros lo src Hsrc.
    pose proof (fresh_not_allocated h) as Hfresh.
    set (a := fresh (dom h)) in *.
    exists a, (<[a := src]> h).
    assert (Hrun : run_slice h (Some lo) = Ret (Some a, <[a := src]> h)).
    { unfold run_slice. rewrite Hsrc. simpl. unfold make_slice. fold a.
      rewrite lookup_insert_eq. simpl.
      rewrite copy_items_fresh, insert_insert_eq. reflexivity. }
    split; [exact Hrun|]. split; [exact Hfresh|].
    split; [simpl; rewrite lookup_insert_eq; reflexivity|].
    split; [apply items_of_other; assumption|].
    intros i v h'' Hstore. unfold store_item in Hstore.
    rewrite lookup_insert_eq in Hstore.
    destruct (i <? length src)%nat; [|discriminate].
    injection Hstore as <-. rewrite insert_insert_eq.
    split; [simpl; rewrite lookup_insert_eq; reflexivity|].
    apply items_of_other; assumption.
Qed.

End Facts.
End golang_facts.

Module server_facts.
Import server.

(** *** Paths *)





(** *** The walk *)

Section Dispatch.
Variable v : Version.
Variable impl : Implementation.
Variable req : HttpRequest.



(** The walk ends with 404, with 405, or in the processing of one method. *)
Lemma dispatch_shape segments :
  forall r ids calls,
  dispatch v impl req r ids calls segments = not_found \/
  dispatch v impl req r ids calls segments = method_not_allowed \/
  exists r' ids' calls' m,
    dispatch v impl req r ids calls segments = serve_method impl req r' ids' calls' m.
Proof.
  induction segments as [|s rest IH]; intros r ids calls.
  - simpl. unfold serve_resource.
    destruct (find _ _) as [m|]; [eauto 8|].
    destruct (filter _ _); auto.
  - simpl. destruct (String.eqb s EmptyString); [auto|].
    assert (Hvar : forall o,
      o = match find_variable r with
          | Some l =>
            match find_resource v (locator_target l) with
            | Some target =>
              dispatch v impl req target (ids ++ [s])%list
                (calls ++ [mkLocatorCall (resource_name r) (locator_segment l) (Some s)])%list
                rest
            | None => not_found
            end
          | None => not_found
          end ->
      o = not_found \/ o = method_not_allowed \/
      exists r' ids' calls' m, o = serve_method impl req r' ids' calls' m).
    { intros o ->. destruct (find_variable r) as [l|]; [|auto].
      destruct (find_resource v (locator_target l)); [apply IH|auto]. }
    destruct (find_literal r s) as [l|].
    + destruct (find_resource v (locator_target l)); [apply IH|auto].
    + destruct rest as [|s' rest']; [|apply Hvar; reflexivity].
      destruct (find (is_action_named s) (resource_methods r)) as [m|];
        [|apply Hvar; reflexivity].
      unfold serve_action. destruct (String.eqb _ _); eauto 8.
Qed.

End Dispatch.

(** *** The envelope *)

Lemma list_envelope_members (response : ServerResponse) :
  json_member "page" (list_envelope response) = JNumber <$> response_page response /\
  json_member "size" (list_envelope response) = JNumber <$> response_size response /\
  json_member "total" (list_envelope response) = JNumber <$> response_total response /\
  json_member "items" (list_envelope response) = JArray <$> response_items response.
Proof.
  unfold list_envelope.
  destruct (response_page response), (response_size response),
    (response_total response), (response_items response);
    repeat split; reflexivity.
Qed.

(** What a [List] call that returned no error leaves in the outcome. *)
Lemma serve_method_list impl req r ids calls m call response :
  In call (invoked (serve_method impl req r ids calls m)) ->
  invoked_method call = List ->
  impl (invoked_resource call) List (invoked_request call) empty_response
    = (response, None) ->
  status (serve_method impl req r ids calls m) = 200%Z /\
  body (serve_method impl req r ids calls m) = Some (list_envelope response).
Proof.
  unfold serve_method.
  destruct m; simpl;
    try (destruct (impl (resource_name r) _ _ empty_response) as [resp [e|]];
         simpl; intros [<-|[]]; discriminate).
  destruct (query_int (http_query req) "page") as [page|]; [|intros []].
  destruct (query_int (http_query req) "size") as [size|]; [|intros []].
  destruct (impl (resource_name r) List _ empty_response) as [resp [e|]] eqn:Himpl;
    simpl; intros [<-|[]] _ Hcall; simpl in Hcall;
    rewrite Himpl in Hcall; inversion Hcall; subst; auto.
Qed.


(** C6.  When a [List] method of the user's implementation is called and
    returns no error, the response is 200 with the envelope of the response
    object: its [page], [size], [total] and [items] members are exactly what
    the method set on the response object, zero included, whatever the
    query parameters were. *)
Theorem list_envelope_echoes_response (v : Version) (impl : Implementation)
    (req : HttpRequest) (call : Invocation) (response : ServerResponse) :
  In call (invoked (ServeHTTP v impl req)) ->
  invoked_method call = List ->
  impl (invoked_resource call) List (invoked_request call) empty_response
    = (response, None) ->
  status (ServeHTTP v impl req) = 200%Z /\
  exists j,
    body (ServeHTTP v impl req) = Some j /\
    j = list_envelope response /\
    json_member "page" j = JNumber <$> response_page response /\
    json_member "size" j = JNumber <$> response_size response /\
    json_member "total" j = JNumber <$> response_total response /\
    json_member "items" j = JArray <$> response_items response.
Proof.
  intros Hin Hlist Himpl.
  assert (Hshape :
    ServeHTTP v impl req = not_found \/ ServeHTTP v impl req = method_not_allowed \/
    exists r ids calls m, ServeHTTP v impl req = serve_method impl req r ids calls m).
  { unfold ServeHTTP.
    destruct (split_path (http_path req)); [|auto].
    destruct (find_resource v (version_root v)); [|auto].
    apply dispatch_shape. }
  destruct Hshape as [Heq|[Heq|(r & ids & calls & m & Heq)]]; rewrite Heq in *;
    try (simpl in Hin; contradiction).
  destruct (serve_method_list impl req r ids calls m call response Hin Hlist Himpl)
    as [Hstatus Hbody].
  split; [exact Hstatus|].
  exists (list_envelope response).
  split; [exact Hbody|]. split; [reflexivity|].
  apply list_envelope_members.
Qed.

End server_facts.

(** * Examples *)

Module examples.
Import concepts golang fixtures.

(** C2.  [struct Outer { Inner Inner }]: an [Outer] whose [Inner] field
    points to an object is reported empty by the emitted [Empty()], which
    has no conjunct for a struct-typed attribute, although not every field
    is in its zero state. *)
Theorem Empty_skips_struct_attribute :
  In (DStructMethod "Outer" "Empty" (BEmpty [])) outer_source /\
  emptyConds test_generator outer_type = [] /\
  run_struct outer_source ∅ (BEmpty (emptyConds test_generator outer_type))
    (Some outer_with_inner) = Ret (VBool true) /\
  all_fields_zero test_generator ∅ outer_type outer_with_inner = false.
Proof.
  split; [|split; [|split]].
  - vm_compute. auto.
  - reflexivity.
  - reflexivity.
  - vm_compute. reflexivity.
Qed.

(** C3, as stated, fails on [Outer]: the list kind constants are in its
    file although [Outer] is not a class. *)
Lemma list_kind_constants_without_class :
  ~ (carries_list_kind_constants outer_source
       (listName test_words test_generator outer_type)
     <-> IsClass outer_type = true).
Proof.
  intros [H _].
  assert (Hc : IsClass outer_type = true); [|discriminate Hc].
  apply H. unfold carries_list_kind_constants, outer_source.
  repeat split; apply golang_facts.listConstants_emitted; simpl; auto.
Qed.

(** Witness of C7: the empty builder fails, the configured one builds. *)
Lemma Build_checks_configuration_witness :
  (exists e, Build (@NewTypesGenerator string) = (None, Some e)) /\
  (exists g : @TypesGenerator string,
     Build test_builder = (Some g, None) /\
     g_reporter g = reporter.mkReporter [] /\ g_model g = test_model /\
     g_output g = b_output test_builder /\
     g_packages g = test_packages /\ g_names g = test_names /\
     g_types g = test_types).
Proof.
  split.
  - apply (proj1 (golang_facts.Build_checks_configuration NewTypesGenerator)).
    left. reflexivity.
  - apply (proj2 (golang_facts.Build_checks_configuration test_builder));
      try reflexivity.
    discriminate.
Defined.

(** Witness of C4: the test model with one, three and no errors counted. *)
Lemma Run_reports_error_count_witness :
  fst (Run test_words (String.concat "_") test_env (generator_with_errors 1))
    = Some "there was 1 error" /\
  fst (Run test_words (String.concat "_") test_env (generator_with_errors 3))
    = Some "there were 3 errors" /\
  fst (Run test_words (String.concat "_") test_env (generator_with_errors 0))
    = None.
Proof.
  assert (Hloop : forall n,
    run_services test_words (String.concat "_") test_env (generator_with_errors n) =
    (None, snd (run_services test_words (String.concat "_") test_env
                  (generator_with_errors n)))).
  { intros n. vm_compute. reflexivity. }
  assert (Hcount : forall n,
    g_errors (snd (run_services test_words (String.concat "_") test_env
                     (generator_with_errors n))) = n).
  { intros n. vm_compute. reflexivity. }
  split; [|split].
  - rewrite (proj1 (golang_facts.Run_reports_error_count test_words
               (String.concat "_") test_env _ _ (Hloop 1%Z)) (Hcount 1%Z)).
    reflexivity.
  - rewrite (proj1 (proj2 (golang_facts.Run_reports_error_count test_words
               (String.concat "_") test_env _ _ (Hloop 3%Z)))).
    + cbn [fst]. rewrite (Hcount 3%Z). reflexivity.
    + rewrite (Hcount 3%Z). reflexivity.
  - rewrite (proj2 (proj2 (golang_facts.Run_reports_error_count test_words
               (String.concat "_") test_env _ _ (Hloop 0%Z))) (Hcount 0%Z)).
    reflexivity.
Defined.

(** Witness of C10: an attribute of a type of no known kind, with a
    reporter that holds nothing yet. *)
Lemma helper_types_never_nil_witness :
  (fst (getterType odd_attribute test_generator) = Some EmptyString /\
   reporter.calls (g_reporter (snd (getterType odd_attribute test_generator)))
   = [reporter.mkErrorCall
        "Don't know how to calculate getter type for attribute '%s'" odd_attribute]) /\
  (fst (fieldType odd_attribute test_generator) = Some EmptyString /\
   reporter.calls (g_reporter (snd (fieldType odd_attribute test_generator)))
   = [reporter.mkErrorCall
        "Don't know how to calculate field type for attribute '%s'" odd_attribute]).
Proof.
  exact (proj2 (proj2 (golang_facts.helper_types_never_nil odd_attribute test_generator))
           eq_refl eq_refl eq_refl eq_refl).
Defined.

(** Witness of C1: a string attribute, and a linked list attribute. *)
Lemma reference_forms_obey_table_witness :
  (fieldType name_attribute test_generator = (Some "*string", test_generator) /\
   getterType name_attribute test_generator = (Some "string", test_generator)) /\
  (fieldType nodes_attribute test_generator = (Some "*InnerListList", test_generator) /\
   getterType nodes_attribute test_generator = (Some "*InnerListList", test_generator)).
Proof.
  split.
  - destruct (golang_facts.reference_forms_obey_table name_attribute RowScalar
                test_generator eq_refl) as [Hf Hg].
    split; [apply Hf|apply Hg]; reflexivity.
  - destruct (golang_facts.reference_forms_obey_table nodes_attribute (RowList true)
                test_generator eq_refl) as [Hf Hg].
    split; [apply Hf|apply Hg]; reflexivity.
Defined.

(** Witness of C3 as amended: [Outer] is not a class, [Cluster] is. *)
Lemma list_kind_constants_always_emitted_witness :
  carries_list_kind_constants outer_source "OuterList" /\
  (exists b, In (DListMethod "ClusterList" "Kind" b) cluster_source).
Proof.
  split.
  - exact (proj1 (golang_facts.list_kind_constants_always_emitted test_words
                    outer_type test_generator)).
  - apply (proj2 (golang_facts.list_kind_constants_always_emitted test_words
                    cluster_type test_generator)).
    reflexivity.
Defined.

(** Witness of C8: [Kind()] and the getter of [Name] on a nil [*Cluster],
    [Get(0)] on a nil [*ClusterList]. *)
Lemma accessors_total_on_nil_witness :
  (exists v, run_struct cluster_source test_heap
               (BKind "ClusterNilKind" "ClusterLinkKind" "ClusterKind") None = Ret v /\
             struct_result_on_nil test_generator cluster_type cluster_source "Cluster"
               (BKind "ClusterNilKind" "ClusterLinkKind" "ClusterKind") v) /\
  (exists v, run_struct cluster_source test_heap (BGetterScalar "Name" "zero") None = Ret v /\
             struct_result_on_nil test_generator cluster_type cluster_source "Cluster"
               (BGetterScalar "Name" "zero") v) /\
  (exists v h', run_list cluster_source test_heap LGet None test_args = Ret (v, h') /\
                list_result_on_nil cluster_source "ClusterList" LGet v).
Proof.
  pose proof (proj1 (golang_facts.accessors_total_on_nil test_words cluster_type
                       test_generator test_heap test_args)) as H.
  split; [|split].
  - apply (H (DStructMethod "Cluster" "Kind"
                (BKind "ClusterNilKind" "ClusterLinkKind" "ClusterKind"))).
    vm_compute. auto 20.
  - apply (H (DStructMethod "Cluster" "Name" (BGetterScalar "Name" "zero"))).
    vm_compute. auto 20.
  - apply (H (DListMethod "ClusterList" "Get" LGet)).
    vm_compute. auto 30.
Defined.

(** Witness of C9: a list of two items. *)
Lemma Slice_returns_fresh_copy_witness :
  items_of test_heap (list_items test_list) = Ret [Some 5%nat; None] /\
  exists a h',
    run_slice test_heap (Some test_list) = Ret (Some a, h') /\
    test_heap !! a = None /\
    items_of h' (Some a) = Ret [Some 5%nat; None] /\
    items_of h' (list_items test_list) = Ret [Some 5%nat; None] /\
    forall i v h'',
      store_item h' (Some a) i v = Ret h'' ->
      items_of h'' (Some a) = Ret (<[i := v]> [Some 5%nat; None]) /\
      items_of h'' (list_items test_list) = Ret [Some 5%nat; None].
Proof.
  split; [reflexivity|].
  apply (proj2 (golang_facts.Slice_returns_fresh_copy test_heap) test_list).
  reflexivity.
Defined.

End examples.

Module server_examples.
Import server.

(** The scenarios of the server tests. *)

Example get_clusters :
  ServeHTTP test_version MyTestRootServer (test_request "/clusters" []) =
  {| status := 200;
     body := Some (JObject [("page", JNumber 0); ("size", JNumber 0);
                            ("total", JNumber 1);
                            ("items", JArray [cluster_json "test-list-clusters"])]);
     located := [mkLocatorCall "Root" "clusters" None];
     invoked := [mkInvocation "Clusters" List (mkServerRequest [] None None)] |}.
Proof. reflexivity. Qed.

Example get_clusters_trailing_slash :
  ServeHTTP test_version MyTestRootServer (test_request "/clusters/" []) = not_found.
Proof. reflexivity. Qed.

Example get_unknown_resource :
  ServeHTTP test_version MyTestRootServer (test_request "/foo" []) = not_found.
Proof. reflexivity. Qed.

Example get_clusters_by_size_and_page :
  body (ServeHTTP test_version MyTestRootServer
          (test_request "/clusters" [("size", "2"); ("page", "1")])) =
  Some (JObject [("page", JNumber 1); ("size", JNumber 2); ("total", JNumber 1);
                 ("items", JArray [cluster_json "test-list-clusters"])]).
Proof. reflexivity. Qed.

Example get_cluster_by_id :
  ServeHTTP test_version MyTestRootServer (test_request "/clusters/123" []) =
  {| status := 200;
     body := Some (cluster_json "test-get-cluster-by-id");
     located := [mkLocatorCall "Root" "clusters" None;
                 mkLocatorCall "Clusters" "id" (Some "123")];
     invoked := [mkInvocation "Cluster" Get (mkServerRequest ["123"] None None)] |}.
Proof. reflexivity. Qed.

Example get_unknown_sub_resource :
  ServeHTTP test_version MyTestRootServer (test_request "/clusters/123/foo" []) = not_found.
Proof. reflexivity. Qed.

(** The identity providers' [List] sets page, size and total to 1, and 1 is
    what the envelope carries, whatever the query asks for. *)
Example get_identity_providers_ignores_query :
  body (ServeHTTP test_version MyTestRootServer
          (test_request "/clusters/123/identity_providers"
             [("page", "5"); ("size", "7")])) =
  Some (JObject [("page", JNumber 1); ("size", JNumber 1); ("total", JNumber 1);
                 ("items",
                  JArray [identity_provider_json "test-list-identity-providers"])]).
Proof. reflexivity. Qed.


(** The locator functions called for the identity providers of a cluster:
    [Clusters()], [Cluster("123")], [IdentityProviders()]. *)
Example get_identity_providers_locates :
  located (ServeHTTP test_version MyTestRootServer
             (test_request "/clusters/123/identity_providers" [])) =
  [ mkLocatorCall "Root" "clusters" None;
    mkLocatorCall "Clusters" "id" (Some "123");
    mkLocatorCall "Cluster" "identity_providers" None ].
Proof. reflexivity. Qed.



(** Witness of C6: the clusters' [List], asked for page 2. *)
Lemma list_envelope_echoes_response_witness :
  status (ServeHTTP test_version MyTestRootServer
            (test_request "/clusters" [("page", "2")])) = 200%Z /\
  exists j,
    body (ServeHTTP test_version MyTestRootServer
            (test_request "/clusters" [("page", "2")])) = Some j /\
    j = list_envelope
          (set_total 1 (set_size 0 (set_page 2
             (set_items [cluster_json "test-list-clusters"] empty_response)))) /\
    json_member "page" j = Some (JNumber 2) /\
    json_member "size" j = Some (JNumber 0) /\
    json_member "total" j = Some (JNumber 1) /\
    json_member "items" j = Some (JArray [cluster_json "test-list-clusters"]).
Proof.
  apply (server_facts.list_envelope_echoes_response test_version MyTestRootServer
           (test_request "/clusters" [("page", "2")])
           (mkInvocation "Clusters" List (mkServerRequest [] (Some 2%Z) None))
           (set_total 1 (set_size 0 (set_page 2
              (set_items [cluster_json "test-list-clusters"] empty_response))))).
  - left. reflexivity.
  - reflexivity.
  - reflexivity.
Defined.

End server_examples.

(** * Further properties of the generator *)

Module golang_more.
Import concepts golang.

Section More.
Context {TypeReference : Type} {RT : ReferenceType TypeReference}.

(** X2.  The error of [Build] names the first field found unset, in the
    order reporter, model, output, packages, names, types, whatever the
    fields after it hold. *)
Theorem Build_names_first_unset (b : @TypesGeneratorBuilder TypeReference) :
  (b_reporter b = None -> Build b = (None, Some "reporter is mandatory")) /\
  (b_reporter b <> None -> b_model b = None ->
   Build b = (None, Some "model is mandatory")) /\
  (b_reporter b <> None -> b_model b <> None -> b_output b = EmptyString ->
   Build b = (None, Some "output is mandatory")) /\
  (b_reporter b <> None -> b_model b <> None -> b_output b <> EmptyString ->
   b_packages b = None ->
   Build b = (None, Some "packages calculator is mandatory")) /\
  (b_reporter b <> None -> b_model b <> None -> b_output b <> EmptyString ->
   b_packages b <> None -> b_names b = None ->
   Build b = (None, Some "names calculator is mandatory")) /\
  (b_reporter b <> None -> b_model b <> None -> b_output b <> EmptyString ->
   b_packages b <> None -> b_names b <> None -> b_types b = None ->
   Build b = (None, Some "types calculator is mandatory")).
Proof.
  unfold Build.
  destruct (b_reporter b), (b_model b), (String.eqb_spec (b_output b) EmptyString),
    (b_packages b), (b_names b), (b_types b);
    repeat split; intros; try reflexivity; congruence.
Qed.

Section RunMore.
Variable words : nomenclator.Words.
Variable Name_String : Name -> string.
Variable env : @BufferEnv TypeReference.

(** X1.  A generator made by [Build] starts with a count of zero and
    nothing [Run] calls changes the count: when every file step succeeds,
    [Run] returns no error, also when the helpers reported errors to the
    reporter on the way. *)
Theorem built_generator_Run_ignores_reports
    (b : @TypesGeneratorBuilder TypeReference) (g g1 : @TypesGenerator TypeReference) :
  Build b = (Some g, None) ->
  run_services words Name_String env g = (None, g1) ->
  Run words Name_String env g = (None, g1) /\ g_errors g1 = 0%Z.
Proof.
  intros Hbuild Hloop.
  assert (Hzero : g_errors g = 0%Z).
  { unfold Build in Hbuild.
    destruct (b_reporter b); [|discriminate].
    destruct (b_model b); [|discriminate].
    destruct (String.eqb (b_output b) EmptyString); [discriminate|].
    destruct (b_packages b); [|discriminate].
    destruct (b_names b); [|discriminate].
    destruct (b_types b); [|discriminate].
    injection Hbuild as <-. reflexivity. }
  pose proof (golang_facts.run_services_keeps_error_count words Name_String env g) as Hkeep.
  rewrite Hloop in Hkeep. simpl in Hkeep.
  assert (Hg1 : g_errors g1 = 0%Z) by congruence.
  split; [|exact Hg1].
  unfold Run. rewrite Hloop, Hg1. reflexivity.
Qed.

(** X3.  With no version in any service of the model, the loops of [Run]
    do nothing: no buffer is created and the generator is left as it was. *)
Theorem Run_without_versions (g : @TypesGenerator TypeReference) :
  (forall s, In s (Services (g_model g)) -> Versions s = []) ->
  run_services words Name_String env g = (None, g).
Proof.
  unfold run_services. generalize (Services (g_model g)) as l.
  induction l as [|s l IH]; intros Hnone; simpl.
  - reflexivity.
  - rewrite (Hnone s) by (left; reflexivity). simpl.
    apply IH. intros s' Hs'. apply Hnone. right. exact Hs'.
Qed.

(** X4.  When no buffer can be built and the model has a version, [Run]
    returns the error of the first build, whatever the error count is, and
    leaves the generator without a buffer and the reporter untouched. *)
Theorem Run_returns_build_error (g : @TypesGenerator TypeReference) (e : error) :
  (forall output pkg file, build_fails env output pkg file = Some e) ->
  (exists s, In s (Services (g_model g)) /\ Versions s <> []) ->
  Run words Name_String env g = (Some e, set_buffer g None).
Proof.
  intros Hfail Hsome.
  assert (Hloop : run_services words Name_String env g = (Some e, set_buffer g None)).
  { unfold run_services. revert Hsome.
    generalize (Services (g_model g)) as l.
    induction l as [|s l IH]; intros (s' & Hin & Hne).
    - contradiction.
    - simpl. destruct (Versions s) as [|v vs] eqn:Hv.
      + simpl. apply IH. destruct Hin as [<-|Hin]; [congruence|].
        exists s'. auto.
      + simpl. unfold run_version at 1, generateVersionMetadataTypeFile, newBuffer.
        rewrite Hfail. reflexivity. }
  unfold Run. rewrite Hloop. reflexivity.
Qed.

End RunMore.

(** X5.  For an attribute whose type is not scalar the field and the getter
    have the same reference; the two helpers differ only on scalars, where
    the field is the nullable reference and the getter the value one. *)
Theorem field_and_getter_agree_off_scalars (a : Attribute)
    (g : @TypesGenerator TypeReference) :
  (IsScalar (Attribute_Type a) = false ->
   fst (fieldType a g) = fst (getterType a g)) /\
  (IsScalar (Attribute_Type a) = true ->
   fst (fieldType a g)
     = Some (default zero_reference (NullableReference (g_types g) (Attribute_Type a))) /\
   fst (getterType a g)
     = Some (default zero_reference (ValueReference (g_types g) (Attribute_Type a)))).
Proof.
  unfold fieldType, getterType, or_report. split; intros Hs; rewrite Hs.
  - match goal with |- context [match ?r with Some _ => _ | None => _ end] =>
      destruct r end; reflexivity.
  - split;
      match goal with |- context [match ?r with Some _ => _ | None => _ end] =>
        destruct r end; reflexivity.
Qed.

(** *** Strings *)

Lemma append_cons (c : ascii) (s t : string) : String c s ++ t = String c (s ++ t).
Proof. reflexivity. Qed.

Lemma append_nil (t : string) : EmptyString ++ t = t.
Proof. reflexivity. Qed.

Lemma append_length (s t : string) :
  String.length (s ++ t) = (String.length s + String.length t)%nat.
Proof.
  induction s as [|c s IH]; [reflexivity|].
  rewrite append_cons. cbn [String.length]. rewrite IH. reflexivity.
Qed.

Lemma append_assoc (a b c : string) : (a ++ b) ++ c = a ++ (b ++ c).
Proof.
  induction a as [|x a IH]; [reflexivity|].
  rewrite !append_cons, IH. reflexivity.
Qed.

Lemma append_cancel_l (s a b : string) : s ++ a = s ++ b -> a = b.
Proof.
  induction s as [|c s IH]; intros H; [exact H|].
  rewrite !append_cons in H. apply IH. congruence.
Qed.

Lemma append_cancel_r (t : string) : forall s1 s2, s1 ++ t = s2 ++ t -> s1 = s2.
Proof.
  induction s1 as [|c1 s1 IH]; intros [|c2 s2] H.
  - reflexivity.
  - apply (f_equal String.length) in H.
    rewrite append_nil, append_cons in H. cbn [String.length] in H.
    rewrite append_length in H. lia.
  - apply (f_equal String.length) in H.
    rewrite append_nil, append_cons in H. cbn [String.length] in H.
    rewrite append_length in H. lia.
  - rewrite !append_cons in H. injection H as -> H. f_equal. apply IH. exact H.
Qed.

Lemma append_not_self (s t : string) : t <> EmptyString -> s ++ t <> s.
Proof.
  intros Ht H. apply (f_equal String.length) in H. rewrite append_length in H.
  destruct t; [congruence|]. cbn [String.length] in H. lia.
Qed.

(** *** Reports *)

Lemma reported_app {A} (m : @Gen TypeReference A) g new :
  reporter.calls (g_reporter (snd (m g))) = (reporter.calls (g_reporter g) ++ new)%list ->
  reported m g = new.
Proof. intros H. unfold reported. rewrite H. apply drop_app_length. Qed.

Lemma fieldType_reported (a : Attribute) (g : @TypesGenerator TypeReference) :
  reporter.calls (g_reporter (snd (fieldType a g)))
    = (reporter.calls (g_reporter g) ++ reported (fieldType a) g)%list /\
  (reported (fieldType a) g = [] \/
   reported (fieldType a) g =
     [reporter.mkErrorCall "Don't know how to calculate field type for attribute '%s'" a]).
Proof.
  assert (H : exists new,
    reporter.calls (g_reporter (snd (fieldType a g)))
      = (reporter.calls (g_reporter g) ++ new)%list /\
    (new = [] \/
     new = [reporter.mkErrorCall
              "Don't know how to calculate field type for attribute '%s'" a])).
  { unfold fieldType, or_report.
    match goal with |- context [match ?r with Some _ => _ | None => _ end] =>
      destruct r end; simpl.
    - exists []. rewrite app_nil_r. auto.
    - eexists. split; [reflexivity|]. auto. }
  destruct H as (new & Hcalls & Hnew).
  rewrite (reported_app _ _ _ Hcalls). auto.
Qed.

Lemma getterType_reported (a : Attribute) (g : @TypesGenerator TypeReference) :
  reporter.calls (g_reporter (snd (getterType a g)))
    = (reporter.calls (g_reporter g) ++ reported (getterType a) g)%list /\
  (reported (getterType a) g = [] \/
   reported (getterType a) g =
     [reporter.mkErrorCall "Don't know how to calculate getter type for attribute '%s'" a]).
Proof.
  assert (H : exists new,
    reporter.calls (g_reporter (snd (getterType a g)))
      = (reporter.calls (g_reporter g) ++ new)%list /\
    (new = [] \/
     new = [reporter.mkErrorCall
              "Don't know how to calculate getter type for attribute '%s'" a])).
  { unfold getterType, or_report.
    match goal with |- context [match ?r with Some _ => _ | None => _ end] =>
      destruct r end; simpl.
    - exists []. rewrite app_nil_r. auto.
    - eexists. split; [reflexivity|]. auto. }
  destruct H as (new & Hcalls & Hnew).
  rewrite (reported_app _ _ _ Hcalls). auto.
Qed.

(** What a helper reports depends on the calculators, not on what was
    reported before. *)
Lemma fieldType_reported_settings (a : Attribute) (g g' : @TypesGenerator TypeReference) :
  same_settings g g' -> reported (fieldType a) g' = reported (fieldType a) g.
Proof.
  intros (_ & Ht & _).
  unfold reported, fieldType, or_report. rewrite Ht.
  match goal with |- context [match ?r with Some _ => _ | None => _ end] =>
    destruct r end; simpl.
  - rewrite !drop_all. reflexivity.
  - rewrite !drop_app_length. reflexivity.
Qed.

Lemma getterType_reported_settings (a : Attribute) (g g' : @TypesGenerator TypeReference) :
  same_settings g g' -> reported (getterType a) g' = reported (getterType a) g.
Proof.
  intros (_ & Ht & _).
  unfold reported, getterType, or_report. rewrite Ht.
  match goal with |- context [match ?r with Some _ => _ | None => _ end] =>
    destruct r end; simpl.
  - rewrite !drop_all. reflexivity.
  - rewrite !drop_app_length. reflexivity.
Qed.

Lemma gen_map_reported {A B} (f : A -> @Gen TypeReference B) (l : list A) :
  (forall a g, same_settings g (snd (f a g))) ->
  (forall a g, reporter.calls (g_reporter (snd (f a g)))
               = (reporter.calls (g_reporter g) ++ reported (f a) g)%list) ->
  (forall a g g', same_settings g g' -> reported (f a) g' = reported (f a) g) ->
  forall g,
    reporter.calls (g_reporter (snd (gen_map f l g)))
    = (reporter.calls (g_reporter g) ++ flat_map (fun a => reported (f a) g) l)%list.
Proof.
  intros Hkeep Hcalls Hsame. induction l as [|a l IH]; intros g; simpl.
  - rewrite app_nil_r. reflexivity.
  - unfold gen_bind, gen_ret.
    pose proof (Hkeep a g) as Hk. pose proof (Hcalls a g) as Hc.
    destruct (f a g) as [b g1] eqn:Hf. simpl in Hk, Hc.
    pose proof (IH g1) as Hl. destruct (gen_map f l g1) as [bs g2]. simpl in *.
    rewrite Hl, Hc, <- app_assoc. f_equal. f_equal.
    apply flat_map_ext. intros x. apply Hsame. exact Hk.
Qed.

Section TemplateMore.
Variable words : nomenclator.Words.

(** X6.  Expanding the struct template only adds to the reporter: after the
    records that were there come the field reports of the attributes, in
    attribute order, then their getter reports, in attribute order; each
    attribute adds at most one report of each kind. *)
Theorem structTypeSource_reports (typ : Type_) (g : @TypesGenerator TypeReference) :
  reporter.calls (g_reporter (snd (structTypeSource words typ g)))
  = (reporter.calls (g_reporter g)
     ++ flat_map (fun a => reported (fieldType a) g) (Attributes typ)
     ++ flat_map (fun a => reported (getterType a) g) (Attributes typ))%list /\
  (forall a,
     (reported (fieldType a) g = [] \/
      reported (fieldType a) g =
        [reporter.mkErrorCall
           "Don't know how to calculate field type for attribute '%s'" a]) /\
     (reported (getterType a) g = [] \/
      reported (getterType a) g =
        [reporter.mkErrorCall
           "Don't know how to calculate getter type for attribute '%s'" a])).
Proof.
  split.
  - unfold structTypeSource.
    pose proof (gen_map_reported structField (Attributes typ)
                  golang_facts.structField_keeps_settings) as Hfields.
    pose proof (golang_facts.gen_map_keeps_settings structField (Attributes typ)
                  golang_facts.structField_keeps_settings g) as Hk.
    assert (Hsf : forall a g0, snd (structField a g0) = snd (fieldType a g0)).
    { intros a g0. unfold structField. destruct (fieldType a g0). reflexivity. }
    assert (Hag : forall a g0,
      snd (attributeGetters (objectName g typ) a g0) = snd (getterType a g0)).
    { intros a g0. unfold attributeGetters. destruct (getterType a g0). reflexivity. }
    assert (Hrf : forall a g0, reported (structField a) g0 = reported (fieldType a) g0).
    { intros a g0. unfold reported. rewrite Hsf. reflexivity. }
    assert (Hrg : forall a g0,
      reported (attributeGetters (objectName g typ) a) g0 = reported (getterType a) g0).
    { intros a g0. unfold reported. rewrite Hag. reflexivity. }
    specialize (Hfields
      (fun a g0 => eq_trans (f_equal (fun x => reporter.calls (g_reporter x)) (Hsf a g0))
                     (eq_trans (proj1 (fieldType_reported a g0))
                        (f_equal (app _) (eq_sym (Hrf a g0)))))).
    specialize (Hfields
      (fun a g0 g' Hs => eq_trans (Hrf a g')
                           (eq_trans (fieldType_reported_settings a g0 g' Hs)
                              (eq_sym (Hrf a g0)))) g).
    destruct (gen_map structField (Attributes typ) g) as [fields g1].
    pose proof (gen_map_reported (attributeGetters (objectName g typ)) (Attributes typ)
                  (golang_facts.attributeGetters_keeps_settings (objectName g typ))
                  (fun a g0 => eq_trans
                     (f_equal (fun x => reporter.calls (g_reporter x)) (Hag a g0))
                     (eq_trans (proj1 (getterType_reported a g0))
                        (f_equal (app _) (eq_sym (Hrg a g0)))))
                  (fun a g0 g' Hs => eq_trans (Hrg a g')
                     (eq_trans (getterType_reported_settings a g0 g' Hs)
                        (eq_sym (Hrg a g0)))) g1) as Hgetters.
    destruct (gen_map (attributeGetters (objectName g typ)) (Attributes typ) g1)
      as [getters g2].
    simpl in *. rewrite Hgetters, Hfields, <- app_assoc. f_equal. f_equal.
    + apply flat_map_ext. intros a. apply Hrf.
    + apply flat_map_ext. intros a. rewrite Hrg.
      apply getterType_reported_settings. exact Hk.
  - intros a. split; [apply fieldType_reported|apply getterType_reported].
Qed.

Lemma fieldType_reads_types (a : Attribute) (g g' : @TypesGenerator TypeReference) :
  same_settings g g' -> fst (fieldType a g') = fst (fieldType a g).
Proof.
  intros (_ & Ht & _). unfold fieldType, or_report. rewrite Ht.
  match goal with |- context [match ?r with Some _ => _ | None => _ end] =>
    destruct r end; reflexivity.
Qed.

(** Each element of the list has its result among those of [gen_map]. *)
Lemma gen_map_covers {A B} (f : A -> @Gen TypeReference B) (l : list A) :
  (forall a g, same_settings g (snd (f a g))) ->
  forall g a, In a l ->
  exists g', same_settings g g' /\ In (fst (f a g')) (fst (gen_map f l g)).
Proof.
  intros Hkeep. induction l as [|x l IH]; intros g a Hin; [contradiction|].
  simpl. unfold gen_bind, gen_ret.
  pose proof (Hkeep x g) as Hk.
  destruct (f x g) as [b g1] eqn:Hf.
  destruct (gen_map f l g1) as [bs g2] eqn:Hm. simpl in *.
  destruct Hin as [->|Hin].
  - exists g. rewrite Hf. split; [apply golang_facts.same_settings_refl|auto].
  - destruct (IH g1 a Hin) as (g' & Hs & Hin'). rewrite Hm in Hin'.
    exists g'. split; [|auto].
    eapply golang_facts.same_settings_trans; eassumption.
Qed.

(** X7.  The file of a struct type always declares the struct, its
    [Empty], the list type and the list's [Len], [Empty], [Get], [Slice],
    [Each] and [Range]; and for every attribute the struct has the
    attribute's field, typed by [fieldType], and the file has the
    attribute's getter and probing getter. *)
Theorem structTypeSource_covers_attributes (typ : Type_)
    (g : @TypesGenerator TypeReference) :
  let code := fst (structTypeSource words typ g) in
  let object := objectName g typ in
  let list_ := listName words g typ in
  (exists fields,
     In (DStruct object fields) code /\
     forall a, In a (Attributes typ) ->
       In (fieldName g a, TyRef (fst (fieldType a g))) fields) /\
  In (DStructMethod object "Empty" (BEmpty (emptyConds g typ))) code /\
  (forall a, In a (Attributes typ) ->
     exists getter probe,
       In (DStructMethod object (getterName g a) getter) code /\
       In (DStructMethod object ("Get" ++ getterName g a) probe) code) /\
  In (DStruct list_ [("href", TyText "*string"); ("link", TyText "bool");
                     ("items", TySliceOfPtr object)]) code /\
  (forall d, In d (listMethods list_) -> In d code).
Proof.
  cbv zeta. unfold structTypeSource.
  pose proof (gen_map_covers structField (Attributes typ)
                golang_facts.structField_keeps_settings g) as Hf.
  pose proof (golang_facts.gen_map_keeps_settings structField (Attributes typ)
                golang_facts.structField_keeps_settings g) as Hk.
  destruct (gen_map structField (Attributes typ) g) as [fields g1].
  pose proof (gen_map_covers (attributeGetters (objectName g typ)) (Attributes typ)
                (golang_facts.attributeGetters_keeps_settings (objectName g typ)) g1)
    as Hg.
  destruct (gen_map (attributeGetters (objectName g typ)) (Attributes typ) g1)
    as [getters g2].
  cbn [fst snd] in *.
  split; [|split; [|split; [|split]]].
  - eexists. split; [apply in_or_app; right; apply in_or_app; left; left; reflexivity|].
    intros a Ha. apply in_or_app. right.
    destruct (Hf a Ha) as (g' & Hs & Hin).
    unfold structField in Hin.
    pose proof (fieldType_reads_types a g g' Hs) as Hty.
    destruct (fieldType a g') as [ref g3]. simpl in Hin, Hty.
    unfold fieldName in *. destruct Hs as (Hn & _ & _). rewrite Hn in Hin.
    rewrite <- Hty. exact Hin.
  - do 3 (apply in_or_app; right). apply in_or_app. left. left. reflexivity.
  - intros a Ha. destruct (Hg a Ha) as (g' & Hs & Hin).
    assert (Hs' : same_settings g g')
      by (eapply golang_facts.same_settings_trans; eassumption).
    unfold attributeGetters in Hin. destruct (getterType a g') as [ref g3].
    simpl in Hin. destruct Hs' as (Hn & _ & _).
    unfold getterName in *. rewrite Hn in Hin.
    eexists _, _. split.
    + do 4 (apply in_or_app; right). apply in_or_app. left.
      apply in_concat. eexists. split; [exact Hin|]. left. reflexivity.
    + do 4 (apply in_or_app; right). apply in_or_app. left.
      apply in_concat. eexists. split; [exact Hin|]. right. left. reflexivity.
  - do 6 (apply in_or_app; right). apply in_or_app. left. left. reflexivity.
  - intros d Hd. do 8 (apply in_or_app; right). exact Hd.
Qed.

(** *** The values of the kind constants *)

Lemma lookup_const_in (code : list (@Decl TypeReference)) name value :
  lookup_const code name = Some value -> In (DConst name value) code.
Proof.
  induction code as [|d code IH]; intros H; [discriminate|].
  destruct d; simpl in H; try (right; apply IH; exact H).
  destruct (String.eqb_spec name0 name) as [->|Hne].
  - injection H as ->. left. reflexivity.
  - right. apply IH. exact H.
Qed.

(** Every constant of a struct file is named by its value followed by
    [Kind]. *)
Lemma constants_named_by_value (typ : Type_) (g : @TypesGenerator TypeReference)
    name value :
  In (DConst name value) (fst (structTypeSource words typ g)) ->
  name = value ++ "Kind".
Proof.
  intros H. apply golang_facts.structTypeSource_declaration in H.
  destruct H as [[_ H]|[[? H]|[[_ H]|[H|[(a & g' & _ & _ & H)|[H|[[? H]|[[_ H]|H]]]]]]]];
    try discriminate.
  - simpl in H. destruct H as [H|[H|[H|[]]]]; injection H as <- <-;
      rewrite ?append_assoc; reflexivity.
  - simpl in H. intuition discriminate.
  - unfold attributeGetters in H. destruct (getterType a g'). simpl in H.
    intuition discriminate.
  - simpl in H. destruct H as [H|[H|[H|[]]]]; injection H as <- <-;
      rewrite ?append_assoc; reflexivity.
  - simpl in H. intuition discriminate.
  - simpl in H. intuition discriminate.
Qed.

Lemma kind_constant_value (typ : Type_) (g : @TypesGenerator TypeReference)
    (name value : string) :
  In (DConst (name ++ "Kind") value) (fst (structTypeSource words typ g)) ->
  lookup_const (fst (structTypeSource words typ g)) (name ++ "Kind") = Some name.
Proof.
  intros Hin.
  destruct (golang_facts.lookup_const_declared _ _ _ Hin) as [s Hs].
  rewrite Hs. f_equal.
  apply lookup_const_in, constants_named_by_value in Hs.
  symmetry. eapply append_cancel_r. exact Hs.
Qed.

(** X8.  In the file of a class, [Kind()] of the struct returns the
    struct's name followed by [Nil] on a nil receiver, followed by [Link] on
    a link, and the bare name otherwise; [Kind()] of the list does the same
    with the list's name, whatever names the calculator gives the two
    types.  The three results are pairwise different. *)
Theorem Kind_tells_nil_link_object (typ : Type_) (g : @TypesGenerator TypeReference)
    (h : Heap) (args : Args) (o : option Object) (l : option ListObject) :
  IsClass typ = true ->
  let code := fst (structTypeSource words typ g) in
  let object := objectName g typ in
  let list_ := listName words g typ in
  run_struct code h
    (BKind (object ++ "NilKind") (object ++ "LinkKind") (object ++ "Kind")) o
    = Ret (VString (kind_text object o obj_link)) /\
  run_list code h
    (LKind (list_ ++ "NilKind") (list_ ++ "LinkKind") (list_ ++ "Kind")) l args
    = Ret (VString (kind_text list_ l list_link), h) /\
  (forall name : string,
     name ++ "Nil" <> name ++ "Link" /\ name ++ "Nil" <> name /\ name ++ "Link" <> name).
Proof.
  intros Hclass. cbv zeta.
  assert (Hconst : forall name,
    (name = objectName g typ \/ name = listName words g typ) ->
    lookup_const (fst (structTypeSource words typ g)) (name ++ "Kind") = Some name /\
    lookup_const (fst (structTypeSource words typ g)) (name ++ "LinkKind")
      = Some (name ++ "Link") /\
    lookup_const (fst (structTypeSource words typ g)) (name ++ "NilKind")
      = Some (name ++ "Nil")).
  { intros name Hname.
    assert (Hin : forall d,
      In d (structConstants name) -> In d (fst (structTypeSource words typ g))).
    { intros d Hd. destruct Hname as [->| ->].
      - apply golang_facts.structConstants_emitted; assumption.
      - apply golang_facts.listConstants_emitted. exact Hd. }
    change (name ++ "LinkKind") with (name ++ ("Link" ++ "Kind")).
    change (name ++ "NilKind") with (name ++ ("Nil" ++ "Kind")).
    rewrite <- !append_assoc.
    repeat split; eapply kind_constant_value; apply Hin; simpl;
      rewrite ?append_assoc; auto. }
  split; [|split].
  - destruct (Hconst (objectName g typ)) as (Hk & Hl & Hn); [auto|].
    unfold run_struct, kind_of, constant, kind_text.
    destruct o as [ob|]; [destruct (obj_link ob)|]; rewrite ?Hk, ?Hl, ?Hn; reflexivity.
  - destruct (Hconst (listName words g typ)) as (Hk & Hl & Hn); [auto|].
    unfold run_list, kind_of, constant, kind_text.
    destruct l as [lo|]; [destruct (list_link lo)|]; rewrite ?Hk, ?Hl, ?Hn; reflexivity.
  - intros name. repeat split.
    + intros H. apply append_cancel_l in H. discriminate.
    + apply append_not_self. discriminate.
    + apply append_not_self. discriminate.
Qed.

End TemplateMore.

(** *** The emitted list accessors on a list *)

Lemma list_len_items (h : Heap) (lo : ListObject) d :
  items_of h (list_items lo) = Ret d ->
  list_len h (Some lo) = Ret (Z.of_nat (length d)).
Proof. intros H. unfold list_len. rewrite H. reflexivity. Qed.

(** X9.  [Get(i)] on a list checks the bounds itself: for an index from 0
    up to [Len()] it returns the item at that index, and for a negative
    index or one at or past [Len()] it returns nil; it does not panic. *)
Theorem Get_checks_bounds (h : Heap) (lo : ListObject) (d : list (option loc)) (i : Z) :
  items_of h (list_items lo) = Ret d ->
  ((0 <= i < Z.of_nat (length d))%Z ->
   exists p, d !! Z.to_nat i = Some p /\ run_get h (Some lo) i = Ret p) /\
  ((i < 0 \/ Z.of_nat (length d) <= i)%Z -> run_get h (Some lo) i = Ret None).
Proof.
  intros Hd. unfold run_get. rewrite (list_len_items h lo d Hd). simpl.
  rewrite Z.geb_leb. split.
  - intros [Hlo Hhi].
    destruct (Z.ltb_spec i 0); [lia|]. simpl.
    destruct (Z.leb_spec (Z.of_nat (length d)) i); [lia|]. simpl.
    rewrite Hd. simpl.
    destruct (lookup_lt_is_Some_2 d (Z.to_nat i)) as [p Hp]; [lia|].
    exists p. rewrite Hp. auto.
  - intros Hout.
    destruct (Z.ltb_spec i 0); [reflexivity|]. simpl.
    destruct (Z.leb_spec (Z.of_nat (length d)) i); [reflexivity|lia].
Qed.

(** X10.  On any list whose items are allocated, nil included, [Len()] is
    the number of items and is never negative, and [Empty()] is true
    exactly when [Len()] is 0. *)
Theorem Len_and_Empty_agree (code : list (@Decl TypeReference)) (h : Heap)
    (l : option ListObject) (args : Args) (n : Z) :
  list_len h l = Ret n ->
  run_list code h LLen l args = Ret (VInt n, h) /\
  run_list code h LEmpty l args = Ret (VBool (n =? 0)%Z, h) /\
  (0 <= n)%Z /\
  (l = None -> n = 0%Z).
Proof.
  intros Hn. unfold run_list. rewrite Hn.
  destruct l as [lo|]; simpl.
  - repeat split; try discriminate.
    unfold list_len in Hn. destruct (items_of h (list_items lo)); [|discriminate].
    simpl in Hn. injection Hn as <-. lia.
  - simpl in Hn. injection Hn as <-. repeat split; lia.
Qed.

(** *** [Each] and [Range] *)

Lemma each_loop_all (f : option loc -> bool) items :
  Forall (fun x => f x = true) items -> each_loop f items = items.
Proof. induction 1 as [|x l Hx _ IH]; simpl; [reflexivity|]. rewrite Hx, IH. reflexivity. Qed.

Lemma each_loop_stops (f : option loc -> bool) pre x post :
  Forall (fun y => f y = true) pre -> f x = false ->
  each_loop f (pre ++ x :: post) = (pre ++ [x])%list.
Proof.
  induction 1 as [|y l Hy _ IH]; intros Hx; simpl.
  - rewrite Hx. reflexivity.
  - rewrite Hy, IH by exact Hx. reflexivity.
Qed.

Lemma range_loop_all (f : Z -> option loc -> bool) items : forall i,
  (forall k x, items !! k = Some x -> f (i + Z.of_nat k)%Z x = true) ->
  range_loop f i items = imap (fun k x => ((i + Z.of_nat k)%Z, x)) items.
Proof.
  induction items as [|x l IH]; intros i Hall; simpl; [reflexivity|].
  rewrite Z.add_0_r. f_equal.
  pose proof (Hall 0%nat x eq_refl) as Hx. simpl in Hx. rewrite Z.add_0_r in Hx.
  rewrite Hx.
  rewrite IH.
  - apply imap_ext. intros k y _. simpl. f_equal. lia.
  - intros k y Hk. replace (i + 1 + Z.of_nat k)%Z with (i + Z.of_nat (S k))%Z by lia.
    apply Hall. exact Hk.
Qed.

Lemma range_loop_stops (f : Z -> option loc -> bool) pre x post : forall i,
  (forall k y, pre !! k = Some y -> f (i + Z.of_nat k)%Z y = true) ->
  f (i + Z.of_nat (length pre))%Z x = false ->
  range_loop f i (pre ++ x :: post)
    = imap (fun k y => ((i + Z.of_nat k)%Z, y)) (pre ++ [x]).
Proof.
  induction pre as [|y l IH]; intros i Hall Hx; simpl.
  - simpl in Hx. rewrite Z.add_0_r in *. rewrite Hx. reflexivity.
  - rewrite Z.add_0_r. f_equal.
    pose proof (Hall 0%nat y eq_refl) as Hy. simpl in Hy. rewrite Z.add_0_r in Hy.
    rewrite Hy.
    rewrite IH.
    + apply imap_ext. intros k z _. simpl. f_equal. lia.
    + intros k z Hk. replace (i + 1 + Z.of_nat k)%Z with (i + Z.of_nat (S k))%Z by lia.
      apply Hall. exact Hk.
    + replace (i + 1 + Z.of_nat (length l))%Z with (i + Z.of_nat (length (y :: l)))%Z
        by (simpl; lia).
      exact Hx.
Qed.

(** X12.  [Each] calls the function on the items in order and stops right
    after the first item for which it returns false, which is the last one
    it is called on; when it returns true throughout, it is called on every
    item.  The heap is left as it was. *)
Theorem Each_stops_at_first_false (code : list (@Decl TypeReference)) (h : Heap)
    (lo : ListObject) (args : Args) (d : list (option loc)) :
  items_of h (list_items lo) = Ret d ->
  (Forall (fun x => arg_each args x = true) d ->
   run_list code h LEach (Some lo) args = Ret (VEachCalls d, h)) /\
  (forall pre x post,
     d = (pre ++ x :: post)%list ->
     Forall (fun y => arg_each args y = true) pre ->
     arg_each args x = false ->
     run_list code h LEach (Some lo) args = Ret (VEachCalls (pre ++ [x]), h)).
Proof.
  intros Hd. unfold run_list. rewrite Hd. simpl. split.
  - intros Hall. rewrite each_loop_all by exact Hall. reflexivity.
  - intros pre x post -> Hpre Hx. rewrite each_loop_stops by assumption. reflexivity.
Qed.

(** X13.  [Range] does the same with the index: the calls carry the indexes
    0, 1, 2, ... with the items at those indexes, and end right after the
    first call that returns false. *)
Theorem Range_counts_from_zero (code : list (@Decl TypeReference)) (h : Heap)
    (lo : ListObject) (args : Args) (d : list (option loc)) :
  items_of h (list_items lo) = Ret d ->
  ((forall k x, d !! k = Some x -> arg_range args (Z.of_nat k) x = true) ->
   run_list code h LRange (Some lo) args
     = Ret (VRangeCalls (imap (fun k x => (Z.of_nat k, x)) d), h)) /\
  (forall pre x post,
     d = (pre ++ x :: post)%list ->
     (forall k y, pre !! k = Some y -> arg_range args (Z.of_nat k) y = true) ->
     arg_range args (Z.of_nat (length pre)) x = false ->
     run_list code h LRange (Some lo) args
       = Ret (VRangeCalls (imap (fun k y => (Z.of_nat k, y)) (pre ++ [x])), h)).
Proof.
  intros Hd. unfold run_list. rewrite Hd. simpl. split.
  - intros Hall. rewrite range_loop_all by (intros k x Hk; rewrite Z.add_0_l; auto).
    reflexivity.
  - intros pre x post -> Hpre Hx.
    rewrite range_loop_stops by (try intros k y Hk; rewrite Z.add_0_l; auto).
    reflexivity.
Qed.

(** *** [Slice] and the heap *)

Lemma run_slice_result (h h' : Heap) (l : option ListObject) (s : option loc) :
  run_slice h l = Ret (s, h') ->
  s = Some (fresh (dom h)) /\ exists d, h' = <[fresh (dom h) := d]> h.
Proof.
  unfold run_slice, make_slice. destruct l as [lo|].
  - destruct (items_of h (list_items lo)) as [src|]; [|discriminate]. simpl.
    rewrite lookup_insert_eq. simpl. rewrite insert_insert_eq.
    intros H. injection H as <- <-. eauto.
  - intros H. injection H as <- <-. eauto.
Qed.

(** X14.  [Slice()] only allocates: the array it returns was not allocated
    before, every array that was is left as it was, and a second [Slice()]
    returns another array and leaves the first result alone. *)
Theorem Slice_only_allocates (h h' : Heap) (l : option ListObject) (s : option loc) :
  run_slice h l = Ret (s, h') ->
  exists a,
    s = Some a /\ h !! a = None /\ is_Some (h' !! a) /\
    (forall b, b <> a -> h' !! b = h !! b) /\
    (forall l2 s2 h2,
       run_slice h' l2 = Ret (s2, h2) ->
       s2 <> Some a /\ h2 !! a = h' !! a).
Proof.
  intros Hrun. destruct (run_slice_result h h' l s Hrun) as (-> & d & ->).
  exists (fresh (dom h)).
  split; [reflexivity|]. split; [apply golang_facts.fresh_not_allocated|].
  split; [rewrite lookup_insert_eq; eauto|].
  split; [intros b Hb; apply lookup_insert_ne; congruence|].
  intros l2 s2 h2 Hrun2.
  destruct (run_slice_result _ _ _ _ Hrun2) as (-> & d2 & ->).
  assert (Hne : fresh (dom (<[fresh (dom h) := d]> h)) <> fresh (dom h)).
  { intros Heq.
    pose proof (golang_facts.fresh_not_allocated (<[fresh (dom h) := d]> h)) as Hf.
    rewrite Heq, lookup_insert_eq in Hf. discriminate. }
  split; [congruence|]. apply lookup_insert_ne. exact Hne.
Qed.

(** *** Getters and probing getters *)

Lemma string_accessors {A} (o : option A) (f : A -> option string) :
  let set := match o with Some ob => f ob | None => None end in
  @string_getter TypeReference A o f = Ret (VString (default EmptyString set)) /\
  @string_probe TypeReference A o f
    = Ret (VPair (VString (default EmptyString set)) (not_nil set)).
Proof.
  unfold string_getter, string_probe.
  destruct o as [ob|]; simpl; [|auto]. destruct (f ob); simpl; auto.
Qed.

(** X15.  For [ID], [HREF] (of the struct and of the list) and
    [ServerVersion]: the probing getter's flag is true exactly when the
    receiver is not nil and the field is set, and its value is what the
    plain getter returns, which is the empty string when the flag is
    false. *)
Theorem probing_getters_extend_getters (code : list (@Decl TypeReference))
    (h : Heap) (args : Args) (o : option Object) (l : option ListObject)
    (m : option MetadataObject) :
  let set {A} (r : option A) (f : A -> option string) :=
    match r with Some ob => f ob | None => None end in
  (run_struct code h BID o = Ret (VString (default EmptyString (set o obj_id))) /\
   run_struct code h BGetID o
     = Ret (VPair (VString (default EmptyString (set o obj_id)))
              (not_nil (set o obj_id)))) /\
  (run_struct code h BHREF o = Ret (VString (default EmptyString (set o obj_href))) /\
   run_struct code h BGetHREF o
     = Ret (VPair (VString (default EmptyString (set o obj_href)))
              (not_nil (set o obj_href)))) /\
  (run_list code h LHREF l args
     = Ret (VString (default EmptyString (set l list_href)), h) /\
   run_list code h LGetHREF l args
     = Ret (VPair (VString (default EmptyString (set l list_href)))
              (not_nil (set l list_href)), h)) /\
  (@run_metadata TypeReference MServerVersion m
     = Ret (VString (default EmptyString (set m serverVersion))) /\
   @run_metadata TypeReference MGetServerVersion m
     = Ret (VPair (VString (default EmptyString (set m serverVersion)))
              (not_nil (set m serverVersion)))).
Proof.
  cbv zeta. unfold run_struct, run_list, run_metadata.
  pose proof (string_accessors o obj_id) as [H1 H2].
  pose proof (string_accessors o obj_href) as [H3 H4].
  pose proof (string_accessors l list_href) as [H5 H6].
  pose proof (string_accessors m serverVersion) as [H7 H8].
  cbv zeta in *. rewrite H1, H2, H3, H4, H5, H6, H7, H8.
  repeat split; reflexivity.
Qed.

(** X16.  On an object, the getter of a scalar attribute returns the value
    the field points to, or the zero literal when the field is nil, and the
    probing getter says which; the getter of a struct, list or map
    attribute returns the field as it is, and its probing getter reports a
    value exactly when the field is not nil, so also for a slice or map
    that is allocated but empty. *)
Theorem attribute_getters_on_object (code : list (@Decl TypeReference)) (h : Heap)
    (ob : Object) (f zero : string) (ty : option TypeReference) :
  (forall p, obj_fields ob !! f = Some (FScalar p) ->
     run_struct code h (BGetterScalar f zero) (Some ob)
       = Ret (match p with Some v => VScalar v | None => VLiteral zero end) /\
     run_struct code h (BProbeScalar f ty) (Some ob)
       = Ret (match p with
              | Some v => VPair (VScalar v) true
              | None => VPair (VZeroOf ty) false
              end)) /\
  (forall fv, obj_fields ob !! f = Some fv ->
     run_struct code h (BGetterRef f) (Some ob) = Ret (VField fv) /\
     run_struct code h (BProbeRef f ty) (Some ob)
       = Ret (if field_not_nil fv then VPair (VField fv) true
              else VPair (VZeroOf ty) false)).
Proof.
  split.
  - intros p Hp. unfold run_struct, field. simpl. rewrite Hp. simpl.
    destruct p; simpl; rewrite ?Hp; auto.
  - intros fv Hfv. unfold run_struct, field. simpl. rewrite Hfv. simpl.
    split; [reflexivity|]. destruct (field_not_nil fv); simpl; rewrite ?Hfv; reflexivity.
Qed.

(** *** [Empty] on an object *)

Lemma run_empty_conds_app (h : Heap) (o : option Object) cs1 cs2 :
  run_empty_conds h o (cs1 ++ cs2)
  = and_then (run_empty_conds h o cs1) (run_empty_conds h o cs2).
Proof.
  induction cs1 as [|c cs1 IH]; simpl; [reflexivity|].
  rewrite IH. unfold and_then.
  destruct (run_empty_cond h o c) as [[|]|]; reflexivity.
Qed.

(** What the conjunct of one attribute evaluates to: the emptiness of the
    field for a scalar, list or map attribute, true for any other. *)
Lemma emptyCond_result (g : @TypesGenerator TypeReference) (h : Heap) (ob : Object)
    (a : Attribute) fv :
  obj_fields ob !! fieldName g a = Some fv ->
  field_has_shape h a fv = true ->
  run_empty_conds h (Some ob) (emptyCond g a)
  = Ret (if IsScalar (Attribute_Type a) || IsList (Attribute_Type a)
            || IsMap (Attribute_Type a)
         then field_is_zero h fv else true).
Proof.
  intros Hfv Hshape. unfold emptyCond, field_has_shape in *.
  destruct (IsScalar (Attribute_Type a)); simpl.
  { unfold field. simpl. rewrite Hfv. simpl.
    destruct fv; try discriminate. destruct p; reflexivity. }
  destruct (IsList (Attribute_Type a)); simpl.
  { destruct (Attribute_Link a); simpl; unfold field; simpl; rewrite Hfv; simpl.
    - destruct fv; try discriminate. unfold field_is_zero.
      destruct (list_len h p) as [n|]; [|discriminate]. simpl.
      destruct (n =? 0)%Z; reflexivity.
    - destruct fv; try discriminate. destruct s as [[|x s]|]; reflexivity. }
  destruct (IsMap (Attribute_Type a)); simpl; [|reflexivity].
  unfold field. simpl. rewrite Hfv. simpl.
  destruct fv; try discriminate. destruct m as [[|x m]|]; reflexivity.
Qed.

Lemma emptyConds_result (g : @TypesGenerator TypeReference) (h : Heap) (ob : Object)
    (attributes : list Attribute) :
  forallb (fun a => match obj_fields ob !! fieldName g a with
                    | Some fv => field_has_shape h a fv
                    | None => false
                    end) attributes = true ->
  run_empty_conds h (Some ob) (flat_map (emptyCond g) attributes)
  = Ret (forallb
           (fun a =>
              if IsScalar (Attribute_Type a) || IsList (Attribute_Type a)
                 || IsMap (Attribute_Type a)
              then match obj_fields ob !! fieldName g a with
                   | Some fv => field_is_zero h fv
                   | None => false
                   end
              else true)
           attributes).
Proof.
  induction attributes as [|a l IH]; simpl; [reflexivity|].
  intros Hall. apply andb_true_iff in Hall. destruct Hall as [Ha Hl].
  destruct (obj_fields ob !! fieldName g a) as [fv|] eqn:Hfv; [|discriminate].
  rewrite run_empty_conds_app, (emptyCond_result g h ob a fv Hfv Ha), (IH Hl).
  unfold and_then. simpl.
  destruct (IsScalar (Attribute_Type a) || IsList (Attribute_Type a)
            || IsMap (Attribute_Type a)); simpl; [|reflexivity].
  destruct (field_is_zero h fv); reflexivity.
Qed.

(** X17.  On an object that has the fields of its type, [Empty()] does not
    panic, and it returns true whenever every field is in its zero or empty
    state. *)
Theorem Empty_true_when_all_fields_zero (code : list (@Decl TypeReference))
    (g : @TypesGenerator TypeReference) (h : Heap) (typ : Type_) (ob : Object) :
  well_shaped g h typ ob = true ->
  (exists r, run_struct code h (BEmpty (emptyConds g typ)) (Some ob) = Ret (VBool r)) /\
  (all_fields_zero g h typ ob = true ->
   run_struct code h (BEmpty (emptyConds g typ)) (Some ob) = Ret (VBool true)).
Proof.
  intros Hshape. unfold well_shaped in Hshape.
  unfold run_struct, emptyConds. simpl.
  rewrite run_empty_conds_app, (emptyConds_result g h ob _ Hshape).
  split.
  - destruct (IsClass typ); simpl; [destruct (obj_id ob); simpl|]; eauto.
  - unfold all_fields_zero. intros Hzero.
    apply andb_true_iff in Hzero. destruct Hzero as [Hclass Hattrs].
    assert (Hchecked :
      forallb
        (fun a =>
           if IsScalar (Attribute_Type a) || IsList (Attribute_Type a)
              || IsMap (Attribute_Type a)
           then match obj_fields ob !! fieldName g a with
                | Some fv => field_is_zero h fv
                | None => false
                end
           else true)
        (Attributes typ) = true).
    { apply forallb_forall. intros a Ha.
      pose proof (proj1 (forallb_forall _ _) Hattrs a Ha) as Hz. simpl in Hz.
      rewrite Hz. destruct (_ || _); reflexivity. }
    rewrite Hchecked.
    destruct (IsClass typ); simpl; [|reflexivity].
    destruct (obj_id ob); simpl; [discriminate|reflexivity].
Qed.

(** X18.  For a struct that is not a class and whose attributes are all of
    scalar, list or map type, [Empty()] is exact on an object that has the
    fields of its type: it returns true if and only if every field is in
    its zero or empty state. *)
Theorem Empty_exact_without_struct_attributes (code : list (@Decl TypeReference))
    (g : @TypesGenerator TypeReference) (h : Heap) (typ : Type_) (ob : Object) :
  IsClass typ = false ->
  (forall a, In a (Attributes typ) ->
     IsScalar (Attribute_Type a) || IsList (Attribute_Type a)
     || IsMap (Attribute_Type a) = true) ->
  well_shaped g h typ ob = true ->
  run_struct code h (BEmpty (emptyConds g typ)) (Some ob)
  = Ret (VBool (all_fields_zero g h typ ob)).
Proof.
  intros Hclass Hkinds Hshape. unfold well_shaped in Hshape.
  unfold run_struct, emptyConds, all_fields_zero. rewrite Hclass. simpl.
  rewrite (emptyConds_result g h ob _ Hshape). simpl. do 2 f_equal.
  induction (Attributes typ) as [|a l IH]; simpl; [reflexivity|].
  rewrite (Hkinds a) by (left; reflexivity).
  rewrite IH; [reflexivity| |].
  - intros a' Ha'. apply Hkinds. right. exact Ha'.
  - simpl in Hshape. apply andb_true_iff in Hshape. tauto.
Qed.

(** *** The file handed to [Write] *)

Lemma same_settings_sym (g g' : @TypesGenerator TypeReference) :
  same_settings g g' -> same_settings g' g.
Proof. intros (Hn & Ht & He). repeat split; congruence. Qed.

Lemma gen_map_reads_settings {A B} (f : A -> @Gen TypeReference B) (l : list A) :
  (forall a g, same_settings g (snd (f a g))) ->
  (forall a g g', same_settings g g' -> fst (f a g') = fst (f a g)) ->
  forall g g', same_settings g g' -> fst (gen_map f l g') = fst (gen_map f l g).
Proof.
  intros Hkeep Hread. induction l as [|a l IH]; intros g g' Hs; simpl; [reflexivity|].
  unfold gen_bind, gen_ret.
  pose proof (Hkeep a g) as Hk. pose proof (Hkeep a g') as Hk'.
  pose proof (Hread a g g' Hs) as Hr.
  destruct (f a g) as [b g1]. destruct (f a g') as [b' g1']. simpl in *. subst b'.
  assert (Hs1 : same_settings g1 g1').
  { eapply golang_facts.same_settings_trans; [apply same_settings_sym; exact Hk|].
    exact (golang_facts.same_settings_trans _ _ _ Hs Hk'). }
  specialize (IH g1 g1' Hs1).
  destruct (gen_map f l g1), (gen_map f l g1'). simpl in *. congruence.
Qed.

Lemma gen_map_keeps_buffer {A B} (f : A -> @Gen TypeReference B) (l : list A) :
  (forall a g, g_buffer (snd (f a g)) = g_buffer g) ->
  forall g, g_buffer (snd (gen_map f l g)) = g_buffer g.
Proof.
  intros Hf. induction l as [|a l IH]; intros g; simpl; [reflexivity|].
  unfold gen_bind, gen_ret.
  pose proof (Hf a g) as Ha. destruct (f a g) as [b g1].
  pose proof (IH g1) as Hl. destruct (gen_map f l g1) as [bs g2].
  simpl in *. congruence.
Qed.

Lemma fieldType_keeps_buffer (a : Attribute) (g : @TypesGenerator TypeReference) :
  g_buffer (snd (fieldType a g)) = g_buffer g.
Proof.
  unfold fieldType, or_report.
  match goal with |- context [match ?r with Some _ => _ | None => _ end] =>
    destruct r end; reflexivity.
Qed.

Lemma getterType_keeps_buffer (a : Attribute) (g : @TypesGenerator TypeReference) :
  g_buffer (snd (getterType a g)) = g_buffer g.
Proof.
  unfold getterType, or_report.
  match goal with |- context [match ?r with Some _ => _ | None => _ end] =>
    destruct r end; reflexivity.
Qed.

Section FileMore.
Variable words : nomenclator.Words.
Variable Name_String : Name -> string.
Variable env : @BufferEnv TypeReference.

(** The helpers called by the struct template leave the buffer alone. *)
Lemma structTypeSource_keeps_buffer (typ : Type_) (g : @TypesGenerator TypeReference) :
  g_buffer (snd (structTypeSource words typ g)) = g_buffer g.
Proof.
  unfold structTypeSource.
  pose proof (gen_map_keeps_buffer structField (Attributes typ)) as Hf.
  assert (H1 : forall a (g0 : @TypesGenerator TypeReference),
    g_buffer (snd (structField a g0)) = g_buffer g0).
  { intros a g0. unfold structField.
    pose proof (fieldType_keeps_buffer a g0) as H. destruct (fieldType a g0). exact H. }
  specialize (Hf H1 g).
  destruct (gen_map structField (Attributes typ) g) as [fields g1].
  pose proof (gen_map_keeps_buffer (attributeGetters (objectName g typ))
                (Attributes typ)) as Hg.
  assert (H2 : forall a (g0 : @TypesGenerator TypeReference),
    g_buffer (snd (attributeGetters (objectName g typ) a g0)) = g_buffer g0).
  { intros a g0. unfold attributeGetters.
    pose proof (getterType_keeps_buffer a g0) as H. destruct (getterType a g0). exact H. }
  specialize (Hg H2 g1).
  destruct (gen_map (attributeGetters (objectName g typ)) (Attributes typ) g1)
    as [getters g2].
  simpl in *. congruence.
Qed.

(** The expansion of the struct template reads the calculators only: the
    reporter and the buffer of the generator do not change it. *)
Lemma structTypeSource_reads_settings (typ : Type_) (g g' : @TypesGenerator TypeReference) :
  same_settings g g' ->
  fst (structTypeSource words typ g') = fst (structTypeSource words typ g).
Proof.
  intros Hs. unfold structTypeSource.
  pose proof (gen_map_reads_settings structField (Attributes typ)
                golang_facts.structField_keeps_settings) as Hf.
  assert (Hfield : forall a (g0 g0' : @TypesGenerator TypeReference),
    same_settings g0 g0' -> fst (structField a g0') = fst (structField a g0)).
  { intros a g0 g0' Hs0. unfold structField.
    pose proof (fieldType_reads_types a g0 g0' Hs0) as Hty.
    destruct (fieldType a g0), (fieldType a g0'). simpl in *.
    unfold fieldName. destruct Hs0 as (-> & _ & _). congruence. }
  specialize (Hf Hfield g g' Hs).
  pose proof (golang_facts.gen_map_keeps_settings structField (Attributes typ)
                golang_facts.structField_keeps_settings g) as Hk.
  pose proof (golang_facts.gen_map_keeps_settings structField (Attributes typ)
                golang_facts.structField_keeps_settings g') as Hk'.
  destruct (gen_map structField (Attributes typ) g) as [fields g1].
  destruct (gen_map structField (Attributes typ) g') as [fields' g1'].
  simpl in Hf, Hk, Hk'. subst fields'.
  assert (Hnames : objectName g' typ = objectName g typ
                   /\ listName words g' typ = listName words g typ
                   /\ emptyConds g' typ = emptyConds g typ).
  { destruct Hs as (Hn & _ & _). unfold objectName, listName, emptyConds, emptyCond,
      fieldName. rewrite Hn. auto. }
  destruct Hnames as (-> & -> & ->).
  assert (Hs1 : same_settings g1 g1').
  { eapply golang_facts.same_settings_trans; [apply same_settings_sym; exact Hk|].
    exact (golang_facts.same_settings_trans _ _ _ Hs Hk'). }
  pose proof (gen_map_reads_settings (attributeGetters (objectName g typ))
                (Attributes typ)
                (golang_facts.attributeGetters_keeps_settings (objectName g typ))) as Hg.
  assert (Hgetter : forall a (g0 g0' : @TypesGenerator TypeReference),
    same_settings g0 g0' ->
    fst (attributeGetters (objectName g typ) a g0')
    = fst (attributeGetters (objectName g typ) a g0)).
  { intros a g0 g0' Hs0. unfold attributeGetters.
    pose proof (golang_facts.getterType_reads_types a g0 g0' Hs0) as Hty.
    destruct (getterType a g0), (getterType a g0'). simpl in *.
    unfold fieldName, getterName. destruct Hs0 as (-> & -> & _). subst. reflexivity. }
  specialize (Hg Hgetter g1 g1' Hs1).
  destruct (gen_map (attributeGetters (objectName g typ)) (Attributes typ) g1).
  destruct (gen_map (attributeGetters (objectName g typ)) (Attributes typ) g1').
  simpl in *. congruence.
Qed.

(** X19.  What [Run] does with one type, when the buffer can be built: for
    a struct type the buffer handed to [Write] is in the package of the
    type's version, in the type's file, imports [time] and holds the
    expansion of the struct template; for an enum type it imports nothing
    and holds the enum's declarations; for a type that is neither, no
    buffer is made and the generator is left as it was.  The result is the
    result of [Write]. *)
Theorem run_type_writes_the_source (typ : Type_) (g : @TypesGenerator TypeReference) :
  build_fails env (g_output g) (VersionPackage (g_packages g) (Type_Owner typ))
    (typeFile words g typ) = None ->
  let file code imports :=
    {| buffer_output := g_output g;
       buffer_package := VersionPackage (g_packages g) (Type_Owner typ);
       buffer_file := typeFile words g typ;
       buffer_imports := imports;
       buffer_code := code |} in
  (IsEnum typ = true ->
   fst (run_type words Name_String env typ g)
     = write_fails env (file (enumTypeSource Name_String g typ) []) /\
   g_buffer (snd (run_type words Name_String env typ g))
     = Some (file (enumTypeSource Name_String g typ) [])) /\
  (IsEnum typ = false -> IsStruct typ = true ->
   fst (run_type words Name_String env typ g)
     = write_fails env (file (fst (structTypeSource words typ g)) [("time", EmptyString)]) /\
   g_buffer (snd (run_type words Name_String env typ g))
     = Some (file (fst (structTypeSource words typ g)) [("time", EmptyString)])) /\
  (IsEnum typ = false -> IsStruct typ = false ->
   run_type words Name_String env typ g = (None, g)).
Proof.
  intros Hbuild. cbv zeta.
  split; [|split].
  - intros He. unfold run_type. rewrite He. cbn [orb].
    unfold generateTypeFile, newBuffer. rewrite Hbuild.
    unfold generateTypeSource. rewrite He. simpl. auto.
  - intros He Hst. unfold run_type. rewrite He, Hst. cbn [orb].
    unfold generateTypeFile, newBuffer. rewrite Hbuild.
    unfold generateTypeSource. rewrite He, Hst.
    unfold generateStructTypeSource, gen_bind, on_buffer. simpl.
    match goal with |- context [structTypeSource words typ ?g0] =>
      pose proof (structTypeSource_reads_settings typ g g0
                    (conj eq_refl (conj eq_refl eq_refl))) as Hcode;
      pose proof (structTypeSource_keeps_buffer typ g0) as Hbuffer;
      destruct (structTypeSource words typ g0) as [code g2]
    end.
    simpl in *. subst code. rewrite Hbuffer. simpl. auto.
  - intros He Hst. unfold run_type. rewrite He, Hst. reflexivity.
Qed.

End FileMore.

End More.
End golang_more.

Module more_examples.
Import concepts golang fixtures.

(** Witness of X1: a struct with an attribute of no known kind; the
    helpers report twice and [Run] returns no error. *)
Lemma built_generator_Run_ignores_reports_witness :
  Build odd_builder = (Some odd_generator, None) /\
  fst (Run test_words (String.concat "_") test_env odd_generator) = None /\
  length (reporter.calls
            (g_reporter (snd (Run test_words (String.concat "_") test_env
                                odd_generator)))) = 2%nat.
Proof.
  assert (Hbuild : Build odd_builder = (Some odd_generator, None)) by reflexivity.
  assert (Hloop :
    run_services test_words (String.concat "_") test_env odd_generator =
    (None, snd (run_services test_words (String.concat "_") test_env odd_generator))).
  { vm_compute. reflexivity. }
  destruct (golang_more.built_generator_Run_ignores_reports test_words
              (String.concat "_") test_env odd_builder odd_generator _ Hbuild Hloop)
    as [Hrun _].
  split; [exact Hbuild|]. rewrite Hrun. split; [reflexivity|].
  vm_compute. reflexivity.
Defined.

(** Witness of X2: nothing set, and only the reporter and the model set. *)
Lemma Build_names_first_unset_witness :
  Build (@NewTypesGenerator string) = (None, Some "reporter is mandatory") /\
  Build partial_builder = (None, Some "output is mandatory").
Proof.
  split.
  - apply (proj1 (golang_more.Build_names_first_unset NewTypesGenerator)).
    reflexivity.
  - apply (proj1 (proj2 (proj2 (golang_more.Build_names_first_unset partial_builder))));
      try discriminate.
    reflexivity.
Defined.

(** Witness of X3: a model whose only service has no version. *)
Lemma Run_without_versions_witness :
  run_services test_words (String.concat "_") test_env (empty_generator 5)
  = (None, empty_generator 5).
Proof.
  apply (golang_more.Run_without_versions test_words (String.concat "_") test_env
           (empty_generator 5)).
  intros s [<-|[]]. reflexivity.
Defined.

(** Witness of X4: the test model, three errors counted, no buffer builds. *)
Lemma Run_returns_build_error_witness :
  Run test_words (String.concat "_") failing_env (generator_with_errors 3)
  = (Some "cannot create file", set_buffer (generator_with_errors 3) None).
Proof.
  apply (golang_more.Run_returns_build_error test_words (String.concat "_")
           failing_env (generator_with_errors 3) "cannot create file").
  - reflexivity.
  - eexists. split; [left; reflexivity|]. discriminate.
Defined.

(** Witness of X5: a struct attribute and a string attribute. *)
Lemma field_and_getter_agree_off_scalars_witness :
  fst (fieldType inner_attribute test_generator)
    = fst (getterType inner_attribute test_generator) /\
  fst (fieldType name_attribute test_generator) = Some "*string" /\
  fst (getterType name_attribute test_generator) = Some "string".
Proof.
  split.
  - apply (proj1 (golang_more.field_and_getter_agree_off_scalars inner_attribute
                    test_generator)).
    reflexivity.
  - apply (proj2 (golang_more.field_and_getter_agree_off_scalars name_attribute
                    test_generator)).
    reflexivity.
Defined.

(** Witness of X7: the attribute [Nodes] of [Cluster]. *)
Lemma structTypeSource_covers_attributes_witness :
  exists getter probe,
    In (DStructMethod "Cluster" "Nodes" getter) cluster_source /\
    In (DStructMethod "Cluster" "GetNodes" probe) cluster_source.
Proof.
  apply (proj1 (proj2 (proj2 (golang_more.structTypeSource_covers_attributes
                                test_words cluster_type test_generator)))
           nodes_attribute).
  simpl. auto.
Defined.

(** Witness of X8: a [Cluster] that is a link, and a nil list. *)
Lemma Kind_tells_nil_link_object_witness :
  run_struct cluster_source test_heap
    (BKind "ClusterNilKind" "ClusterLinkKind" "ClusterKind")
    (Some {| obj_id := None; obj_href := None; obj_link := true; obj_fields := ∅ |})
    = Ret (VString "ClusterLink") /\
  run_list cluster_source test_heap
    (LKind "ClusterListNilKind" "ClusterListLinkKind" "ClusterListKind") None test_args
    = Ret (VString "ClusterListNil", test_heap).
Proof.
  destruct (golang_more.Kind_tells_nil_link_object test_words cluster_type
              test_generator test_heap test_args
              (Some {| obj_id := None; obj_href := None; obj_link := true;
                       obj_fields := ∅ |})
              None eq_refl) as (Hs & Hl & _).
  split; [exact Hs|exact Hl].
Defined.

(** Witness of X9: index 1 of a list of two items, and indexes 2 and -1. *)
Lemma Get_checks_bounds_witness :
  (exists p, [Some 5%nat; None] !! Z.to_nat 1 = Some p /\
             run_get test_heap (Some test_list) 1 = Ret p) /\
  run_get test_heap (Some test_list) 2 = Ret None /\
  run_get test_heap (Some test_list) (-1) = Ret None.
Proof.
  split; [|split].
  - apply (proj1 (golang_more.Get_checks_bounds test_heap test_list
                    [Some 5%nat; None] 1 eq_refl)).
    simpl. lia.
  - apply (proj2 (golang_more.Get_checks_bounds test_heap test_list
                    [Some 5%nat; None] 2 eq_refl)).
    simpl. lia.
  - apply (proj2 (golang_more.Get_checks_bounds test_heap test_list
                    [Some 5%nat; None] (-1) eq_refl)).
    simpl. lia.
Defined.

(** Witness of X10: the list of two items. *)
Lemma Len_and_Empty_agree_witness :
  run_list cluster_source test_heap LLen (Some test_list) test_args
    = Ret (VInt 2, test_heap) /\
  run_list cluster_source test_heap LEmpty (Some test_list) test_args
    = Ret (VBool false, test_heap).
Proof.
  destruct (golang_more.Len_and_Empty_agree cluster_source test_heap (Some test_list)
              test_args 2 eq_refl) as (Hlen & Hempty & _).
  split; [exact Hlen|exact Hempty].
Defined.

(** Witness of X12: three items, the second nil; the function stops there. *)
Lemma Each_stops_at_first_false_witness :
  run_list cluster_source three_heap LEach (Some test_list) stopping_args
  = Ret (VEachCalls [Some 5%nat; None], three_heap).
Proof.
  apply (proj2 (golang_more.Each_stops_at_first_false cluster_source three_heap
                  test_list stopping_args [Some 5%nat; None; Some 6%nat] eq_refl)
           [Some 5%nat] None [Some 6%nat]).
  - reflexivity.
  - repeat constructor.
  - reflexivity.
Defined.

(** Witness of X13: three items; the function returns false at index 1. *)
Lemma Range_counts_from_zero_witness :
  run_list cluster_source three_heap LRange (Some test_list) stopping_args
  = Ret (VRangeCalls [(0%Z, Some 5%nat); (1%Z, None)], three_heap).
Proof.
  apply (proj2 (golang_more.Range_counts_from_zero cluster_source three_heap
                  test_list stopping_args [Some 5%nat; None; Some 6%nat] eq_refl)
           [Some 5%nat] None [Some 6%nat]).
  - reflexivity.
  - intros [|k] y Hk; [reflexivity|discriminate].
  - reflexivity.
Defined.

(** Witness of X14: [Slice()] of the list of two items. *)
Lemma Slice_only_allocates_witness :
  exists a,
    fst <$> (match run_slice test_heap (Some test_list) with
             | Ret r => Some r
             | Panic => None
             end) = Some (Some a) /\
    test_heap !! a = None.
Proof.
  destruct (run_slice test_heap (Some test_list)) as [[s h']|] eqn:Hrun.
  - destruct (golang_more.Slice_only_allocates test_heap h' (Some test_list) s Hrun)
      as (a & -> & Hfresh & _).
    exists a. split; [reflexivity|exact Hfresh].
  - vm_compute in Hrun. discriminate.
Defined.

(** Witness of X16: the account name of a review, set and not set, and its
    cluster identifiers, allocated but empty. *)
Lemma attribute_getters_on_object_witness :
  run_struct outer_source test_heap (BGetterScalar "AccountUsername" "zero")
    (Some (review (Some (SString "jdoe")) None))
    = Ret (@VScalar string (SString "jdoe")) /\
  run_struct outer_source test_heap (BProbeScalar "AccountUsername" (Some "string"))
    (Some (review None None))
    = Ret (VPair (VZeroOf (Some "string")) false) /\
  run_struct outer_source test_heap (BProbeRef "ClusterIDs" (Some "*stringList"))
    (Some (review None (Some [])))
    = Ret (VPair (VField (FSlice (Some []))) true).
Proof.
  split; [|split].
  - apply (proj1 (golang_more.attribute_getters_on_object outer_source test_heap
                    (review (Some (SString "jdoe")) None)
                    "AccountUsername" "zero" None) (Some (SString "jdoe"))).
    vm_compute. reflexivity.
  - apply (proj1 (golang_more.attribute_getters_on_object outer_source test_heap
                    (review None None)
                    "AccountUsername" "zero" (Some "string")) None).
    vm_compute. reflexivity.
  - apply (proj2 (golang_more.attribute_getters_on_object outer_source test_heap
                    (review None (Some []))
                    "ClusterIDs" "zero" (Some "*stringList")) (FSlice (Some []))).
    vm_compute. reflexivity.
Defined.

(** Witness of X17: a review with nothing set. *)
Lemma Empty_true_when_all_fields_zero_witness :
  well_shaped test_generator test_heap resource_review_type (review None None) = true /\
  all_fields_zero test_generator test_heap resource_review_type (review None None) = true /\
  run_struct outer_source test_heap
    (BEmpty (emptyConds test_generator resource_review_type))
    (Some (review None None)) = Ret (@VBool string true).
Proof.
  assert (Hshape : well_shaped test_generator test_heap resource_review_type
                     (review None None) = true) by (vm_compute; reflexivity).
  assert (Hzero : all_fields_zero test_generator test_heap resource_review_type
                    (review None None) = true) by (vm_compute; reflexivity).
  split; [exact Hshape|]. split; [exact Hzero|].
  exact (proj2 (golang_more.Empty_true_when_all_fields_zero outer_source
                  test_generator test_heap resource_review_type (review None None)
                  Hshape) Hzero).
Defined.

(** Witness of X18: a review with one cluster identifier. *)
Lemma Empty_exact_without_struct_attributes_witness :
  run_struct outer_source test_heap
    (BEmpty (emptyConds test_generator resource_review_type))
    (Some (review None (Some [IScalar (SString "c1")]))) = Ret (@VBool string false).
Proof.
  rewrite (golang_more.Empty_exact_without_struct_attributes outer_source
             test_generator test_heap resource_review_type
             (review None (Some [IScalar (SString "c1")]))).
  - vm_compute. reflexivity.
  - reflexivity.
  - intros a Ha. simpl in Ha.
    destruct Ha as [<-|[<-|[<-|[<-|[<-|[<-|[]]]]]]]; reflexivity.
  - vm_compute. reflexivity.
Defined.

(** Witness of X19: the file of [ResourceReview]. *)
Lemma run_type_writes_the_source_witness :
  g_buffer (snd (run_type test_words (String.concat "_") test_env
                   resource_review_type test_generator))
  = Some {| buffer_output := "out";
            buffer_package := "v1";
            buffer_file := "Resource_Review_Type.go";
            buffer_imports := [("time", EmptyString)];
            buffer_code := fst (structTypeSource test_words resource_review_type
                                  test_generator) |}.
Proof.
  exact (proj2 (proj1 (proj2 (golang_more.run_type_writes_the_source test_words
                                (String.concat "_") test_env resource_review_type
                                test_generator eq_refl))
                  eq_refl eq_refl)).
Defined.

End more_examples.
